(** * gitup: a command-line client for the GitHub contents API

    Shallow embedding of [gitup.py] and the properties its specification
    states about it.

    Conventions of the embedding.
    - A Python [str] is a [string] whose characters are its code points;
      the embedding covers the text whose code points lie below 256.  A
      Python [bytes] value is a [string] whose characters are its bytes.
    - Python exceptions are the constructors of [exn]; a handler is a
      computation in the monad [M], which threads the local file system,
      the remote service and standard input, and records what the program
      does (console lines, file writes, API calls) in a trace.
    - The operating system, [pathlib], [base64] and PyGithub are not part
      of the program: they are the fields of the class [Env].  Theorems are
      stated for every environment; closed examples run the handlers on the
      small simulated environment of module [Sim].
    - [os.path] is [posixpath].
    - [Spinner] only animates the console line and is left out; so is the
      colouring done by [colored]. *)

From Stdlib Require Import String Ascii List ZArith Bool Lia DecimalString.
Import ListNotations.

Local Open Scope list_scope.
Local Open Scope string_scope.

(** ** Python string operations used by the program *)

Module Py.

(** [not s] for a string: the empty string is falsy. *)
Definition falsy (s : string) : bool :=
  match s with EmptyString => true | String _ _ => false end.

(** [c in s] for a one-character string [c]. *)
Fixpoint contains (c : ascii) (s : string) : bool :=
  match s with
  | EmptyString => false
  | String a t => Ascii.eqb a c || contains c t
  end.

(** [s.startswith(c)] for a one-character string [c]. *)
Definition startswith (c : ascii) (s : string) : bool :=
  match s with
  | EmptyString => false
  | String a _ => Ascii.eqb a c
  end.

(** [s.endswith(c)] for a one-character string [c]. *)
Fixpoint endswith (c : ascii) (s : string) : bool :=
  match s with
  | EmptyString => false
  | String a EmptyString => Ascii.eqb a c
  | String _ t => endswith c t
  end.

(** [s.split(c, 1)]: a list of one or two parts. *)
Fixpoint split1 (c : ascii) (s : string) : list string :=
  match s with
  | EmptyString => [EmptyString]
  | String a t =>
      if Ascii.eqb a c then [EmptyString; t]
      else match split1 c t with
           | l :: rest => String a l :: rest
           | [] => [String a EmptyString]
           end
  end.

(** [s.replace(a, b)] for one-character strings [a] and [b]. *)
Fixpoint replace (a b : ascii) (s : string) : string :=
  match s with
  | EmptyString => EmptyString
  | String c t => String (if Ascii.eqb c a then b else c) (replace a b t)
  end.

(** The characters [str.strip()] removes, those for which
    [str.isspace] holds: U+0009 to U+000D, U+001C to U+0020, U+0085 and
    U+00A0. *)
Definition is_space (c : ascii) : bool :=
  let n := nat_of_ascii c in
  (((9 <=? n) && (n <=? 13)) || ((28 <=? n) && (n <=? 32))
   || (n =? 133) || (n =? 160))%nat.

Fixpoint lstrip (s : string) : string :=
  match s with
  | EmptyString => EmptyString
  | String c t => if is_space c then lstrip t else s
  end.

Fixpoint rstrip (s : string) : string :=
  match s with
  | EmptyString => EmptyString
  | String c t =>
      match rstrip t with
      | EmptyString => if is_space c then EmptyString else String c EmptyString
      | t' => String c t'
      end
  end.

(** [s.strip()]. *)
Definition strip (s : string) : string := rstrip (lstrip s).

(** [a or b] where [a] is a string. *)
Definition or_else (a b : string) : string := if falsy a then b else a.

End Py.

(** ** [os.path] (posixpath) *)

Module OsPath.

(** The text after the last ['/'] of [p], and the text before it
    ([None] when [p] has no ['/']): [p.rfind('/')] seen from both sides. *)
Fixpoint rsplit_slash (p : string) : option string * string :=
  match p with
  | EmptyString => (None, EmptyString)
  | String c t =>
      match rsplit_slash t with
      | (Some h, b) => (Some (String c h), b)
      | (None, b) =>
          if Ascii.eqb c "/" then (Some EmptyString, b)
          else (None, String c b)
      end
  end.

(** [os.path.basename(p)]. *)
Definition basename (p : string) : string := snd (rsplit_slash p).

(** [head.rstrip('/')]. *)
Fixpoint rstrip_slash (s : string) : string :=
  match s with
  | EmptyString => EmptyString
  | String c t =>
      match rstrip_slash t with
      | EmptyString => if Ascii.eqb c "/" then EmptyString else String c EmptyString
      | t' => String c t'
      end
  end.

(** [os.path.dirname(p)]: the head up to and including the last ['/'],
    without its trailing slashes unless it consists of slashes only. *)
Definition dirname (p : string) : string :=
  match fst (rsplit_slash p) with
  | None => EmptyString
  | Some h =>
      let head := h ++ "/" in
      match rstrip_slash head with
      | EmptyString => head
      | stripped => stripped
      end
  end.

(** [os.path.join(a, b)]. *)
Definition join (a b : string) : string :=
  if Py.startswith "/" b then b
  else if Py.falsy a || Py.endswith "/" a then a ++ b
  else a ++ "/" ++ b.

End OsPath.

(** ** The path parser *)

(** [parse_repo_path]: the pair [(None, None)] of the source is [None],
    a pair of two strings is [Some]. *)
Definition parse_repo_path (repo_path : string) : option (string * string) :=
  if Py.falsy repo_path then None
  else
    let parts := Py.split1 ":" repo_path in
    let repo_name := nth 0 parts "" in
    let repo_path := if (1 <? length parts)%nat then nth 1 parts "" else "" in
    if Py.falsy repo_name || negb (Py.contains "/" repo_name) then None
    else Some (repo_name, repo_path).

(** ** Exceptions and results *)

(** The exceptions the program meets.  [SystemExit] and
    [KeyboardInterrupt] are not subclasses of [Exception];
    [GithubException] and every [OtherException] are. *)
Inductive exn : Type :=
| SystemExit (code : Z)
| KeyboardInterrupt
| GithubException (status : Z) (text : string)
| OtherException (text : string).

(** [str(e)], as the f-strings of the program print it. *)
Definition exn_str (e : exn) : string :=
  match e with
  | GithubException _ text | OtherException text => text
  | SystemExit _ | KeyboardInterrupt => ""
  end.

Inductive result (A : Type) : Type :=
| Ok (a : A)
| Raise (e : exn).

Arguments Ok {A} a.
Arguments Raise {A} e.

(** ** What PyGithub returns *)

(** A [ContentFile]; [cf_content] is the base64 text of a file that
    [get_contents] returned alone.  The entries of a listing come without
    their content: PyGithub fetches it when [.content] is first read. *)
Record ContentFile : Type := {
  cf_name : string;
  cf_type : string;
  cf_sha : string;
  cf_content : string
}.

(** [repo.get_contents(path)] returns one [ContentFile] or a list. *)
Inductive Contents : Type :=
| Single (c : ContentFile)
| Listing (l : list ContentFile).

Record RepoSummary : Type := {
  full_name : string;
  private : bool
}.

(** [Github(token)] and the object [g.get_repo(name)] returns. *)
Record Github : Type := { auth_token : string }.

Record Repository : Type := {
  client : Github;
  repo_name_of : string
}.

(** ** The trace of a run *)

Inductive api_call : Type :=
| GetUser (g : Github)
| GetRepos (g : Github)
| GetRepo (g : Github) (name : string)
| GetContents (r : Repository) (path : string)
| UpdateFile (r : Repository) (path message content sha : string)
| CreateFile (r : Repository) (path message content : string)
| DeleteFile (r : Repository) (path message sha : string)
| GetEntry (r : Repository) (entry : ContentFile).

Inductive event : Type :=
| Print (line : string)
| Input (prompt : string)
| Write (path data : string)
| Makedirs (path : string)
| Call (c : api_call).

Definition is_call (e : event) : bool :=
  match e with Call _ => true | _ => false end.

(** The calls that change the remote repository. *)
Definition is_remote_write (e : event) : bool :=
  match e with
  | Call (UpdateFile _ _ _ _ _) | Call (CreateFile _ _ _ _)
  | Call (DeleteFile _ _ _ _) => true
  | _ => false
  end.

Definition is_delete (e : event) : bool :=
  match e with Call (DeleteFile _ _ _ _) => true | _ => false end.

Definition is_create (e : event) : bool :=
  match e with Call (CreateFile _ _ _ _) => true | _ => false end.

Definition is_local_write (e : event) : bool :=
  match e with Write _ _ | Makedirs _ => true | _ => false end.

(** ** The environment *)

(** [F] is the state of the local file system, [N] the state of the
    remote service.  Reading either does not change it. *)
Class Env (F N : Type) : Type := {
  (** [os.path.exists(p)], [Path(p).exists()] *)
  fs_exists : F -> string -> bool;
  (** [os.path.isfile(p)], [Path(p).is_file()] *)
  fs_isfile : F -> string -> bool;
  (** [Path(p).is_dir()] *)
  fs_isdir : F -> string -> bool;
  (** [open(p).read()] *)
  fs_read : F -> string -> result string;
  (** [open(p, 'w').write(data)] *)
  fs_write : F -> string -> string -> result unit * F;
  (** [os.makedirs(p, exist_ok=True)] *)
  fs_makedirs : F -> string -> result unit * F;
  (** [list(Path(p).rglob('*'))], each path as its [str] *)
  fs_rglob : F -> string -> list string;
  (** [str(Path(p).relative_to(Path(base)))] *)
  path_relative_to : string -> string -> result string;
  (** [base64.b64decode(text)] *)
  b64decode : string -> result string;
  (** [g.get_user().login]: the attribute is fetched by a request *)
  gh_user_login : N -> Github -> result string;
  (** [list(g.get_user().get_repos())] *)
  gh_get_repos : N -> Github -> result (list RepoSummary);
  (** [g.get_repo(name)] *)
  gh_get_repo : N -> Github -> string -> result unit;
  (** [repo.get_contents(path)] *)
  gh_get_contents : N -> Repository -> string -> result Contents;
  (** [entry.content] for an entry of a listing: the request that
      completes the entry *)
  gh_entry_content : N -> Repository -> ContentFile -> result string;
  (** [repo.update_file(path, message, content, sha)] *)
  gh_update_file :
    N -> Repository -> string -> string -> string -> string -> result unit * N;
  (** [repo.create_file(path, message, content)] *)
  gh_create_file :
    N -> Repository -> string -> string -> string -> result unit * N;
  (** [repo.delete_file(path, message, sha)] *)
  gh_delete_file :
    N -> Repository -> string -> string -> string -> result unit * N
}.

(** ** The monad of handlers *)

Section Program.

Context {F N : Type} {E : Env F N}.

(** The world a handler runs in; [stdin] holds what each coming
    [input()] gives: a line, or the exception it raises. *)
Record state : Type := {
  fs : F;
  net : N;
  stdin : list (result string)
}.

Definition with_fs (s : state) (f : F) : state :=
  {| fs := f; net := net s; stdin := stdin s |}.

Definition with_net (s : state) (n : N) : state :=
  {| fs := fs s; net := n; stdin := stdin s |}.

Definition with_stdin (s : state) (l : list (result string)) : state :=
  {| fs := fs s; net := net s; stdin := l |}.

Definition M (A : Type) : Type := state -> result A * state * list event.

Definition ret {A} (a : A) : M A := fun s => (Ok a, s, []).

Definition bind {A B} (m : M A) (k : A -> M B) : M B :=
  fun s =>
    match m s with
    | (Ok a, s1, t1) =>
        match k a s1 with
        | (r, s2, t2) => (r, s2, (t1 ++ t2)%list)
        end
    | (Raise e, s1, t1) => (Raise e, s1, t1)
    end.

Definition raise {A} (e : exn) : M A := fun s => (Raise e, s, []).

(** [try: m  except ...: h]; a handler re-raises what no clause takes. *)
Definition try_ {A} (m : M A) (h : exn -> M A) : M A :=
  fun s =>
    match m s with
    | (Ok a, s1, t1) => (Ok a, s1, t1)
    | (Raise e, s1, t1) =>
        match h e s1 with
        | (r, s2, t2) => (r, s2, (t1 ++ t2)%list)
        end
    end.

Definition emit (e : event) : M unit := fun s => (Ok tt, s, [e]).

Definition when (b : bool) (m : M unit) : M unit :=
  if b then m else ret tt.

(** [for x in l: body(x)]. *)
Fixpoint for_each {A} (l : list A) (body : A -> M unit) : M unit :=
  match l with
  | [] => ret tt
  | x :: rest => bind (body x) (fun _ => for_each rest body)
  end.

End Program.

Declare Scope prog_scope.
Delimit Scope prog_scope with prog.
Notation "x <- m ;; k" := (bind m (fun x => k))
  (at level 61, m at next level, right associativity) : prog_scope.
Notation "m ;; k" := (bind m (fun _ => k))
  (at level 61, right associativity) : prog_scope.

Local Open Scope prog_scope.

(** ** The program *)

Section Gitup.

Context {F N : Type} {E : Env F N}.

Local Abbreviation M := (@M F N).

(** *** Console, files and API calls as computations *)

Definition print (line : string) : M unit := emit (Print line).

Definition sys_exit {A} (code : Z) : M A := raise (SystemExit code).

(** [input(prompt)]; at the end of standard input it raises [EOFError]. *)
Definition input (prompt : string) : M string :=
  fun s =>
    match stdin s with
    | [] => (Raise (OtherException "EOFError"), s, [Input prompt])
    | r :: rest => (r, with_stdin s rest, [Input prompt])
    end.

Definition os_path_exists (p : string) : M bool :=
  fun s => (Ok (fs_exists (fs s) p), s, []).

Definition os_path_isfile (p : string) : M bool :=
  fun s => (Ok (fs_isfile (fs s) p), s, []).

Definition path_is_dir (p : string) : M bool :=
  fun s => (Ok (fs_isdir (fs s) p), s, []).

Definition path_rglob (p : string) : M (list string) :=
  fun s => (Ok (fs_rglob (fs s) p), s, []).

Definition relative_to (p base : string) : M string :=
  fun s => (path_relative_to p base, s, []).

Definition open_read (p : string) : M string :=
  fun s => (fs_read (fs s) p, s, []).

Definition open_write (p data : string) : M unit :=
  fun s =>
    match fs_write (fs s) p data with
    | (r, f') => (r, with_fs s f', [Write p data])
    end.

Definition os_makedirs (p : string) : M unit :=
  fun s =>
    match fs_makedirs (fs s) p with
    | (r, f') => (r, with_fs s f', [Makedirs p])
    end.

Definition base64_b64decode (text : string) : M string :=
  fun s => (b64decode text, s, []).

Definition user_login (g : Github) : M string :=
  fun s => (gh_user_login (net s) g, s, [Call (GetUser g)]).

Definition get_repos (g : Github) : M (list RepoSummary) :=
  fun s => (gh_get_repos (net s) g, s, [Call (GetRepos g)]).

Definition get_repo (g : Github) (name : string) : M Repository :=
  fun s =>
    (match gh_get_repo (net s) g name with
     | Ok _ => Ok {| client := g; repo_name_of := name |}
     | Raise e => Raise e
     end, s, [Call (GetRepo g name)]).

Definition get_contents (repo : Repository) (path : string) : M Contents :=
  fun s => (gh_get_contents (net s) repo path, s, [Call (GetContents repo path)]).

Definition entry_content (repo : Repository) (entry : ContentFile) : M string :=
  fun s => (gh_entry_content (net s) repo entry, s, [Call (GetEntry repo entry)]).

Definition update_file (repo : Repository) (path message content sha : string)
  : M unit :=
  fun s =>
    match gh_update_file (net s) repo path message content sha with
    | (r, n') => (r, with_net s n', [Call (UpdateFile repo path message content sha)])
    end.

Definition create_file (repo : Repository) (path message content : string)
  : M unit :=
  fun s =>
    match gh_create_file (net s) repo path message content with
    | (r, n') => (r, with_net s n', [Call (CreateFile repo path message content)])
    end.

Definition delete_file (repo : Repository) (path message sha : string)
  : M unit :=
  fun s =>
    match gh_delete_file (net s) repo path message sha with
    | (r, n') => (r, with_net s n', [Call (DeleteFile repo path message sha)])
    end.

(** [contents.sha]: a list has no such attribute. *)
Definition contents_sha (contents : Contents) : M string :=
  match contents with
  | Single c => ret (cf_sha c)
  | Listing _ =>
      raise (OtherException "'list' object has no attribute 'sha'")
  end.

(** *** Messages *)

Definition TOKEN_PATH : string := "~/.gitup_token".

Definition error (message : string) : M unit :=
  print ("gitup ERR! " ++ message).

Definition success (message : string) : M unit := print message.

Definition info (message : string) : M unit := print message.

(** [str(n)] for a count. *)
Definition str_nat (n : nat) : string :=
  NilEmpty.string_of_uint (Nat.to_uint n).

(** *** [get_github_client] *)

Definition get_github_client : M Github :=
  present <- os_path_exists TOKEN_PATH ;;
  when (negb present)
    (error "Authentication required" ;;
     print "Run: gitup login" ;;
     print "Then provide your GitHub token when prompted" ;;
     sys_exit 1) ;;
  try_
    (text <- open_read TOKEN_PATH ;;
     let token := Py.strip text in
     ret {| auth_token := token |})
    (fun e =>
       match e with
       | GithubException _ _ | OtherException _ =>
           error ("Failed to read authentication token: " ++ exn_str e) ;;
           sys_exit 1
       | _ => raise e
       end).

(** *** [login] *)

Definition login : M unit :=
  print "GitHub Authentication" ;;
  print "" ;;
  print "To authenticate, you need a GitHub personal access token." ;;
  print "How to get a token:" ;;
  print "  1. Go to https://github.com/settings/tokens" ;;
  print "  2. Click 'Generate new token (classic)'" ;;
  print "  3. Select required permissions (repo, user)" ;;
  print "  4. Copy the generated token" ;;
  print "" ;;
  token <- try_
    (text <- input "GitHub token: " ;; ret (Py.strip text))
    (fun e =>
       match e with
       | KeyboardInterrupt => print "
Cancelled" ;; sys_exit 0
       | _ => raise e
       end) ;;
  when (Py.falsy token)
    (error "Token cannot be empty" ;; sys_exit 1) ;;
  try_
    (let g := {| auth_token := token |} in
     user <- user_login g ;;
     open_write TOKEN_PATH token ;;
     success ("Authenticated as " ++ user))
    (fun e =>
       match e with
       | GithubException _ _ =>
           error "Authentication failed" ;;
           print "Please verify:" ;;
           print "  - Token is correct" ;;
           print "  - Token has required permissions" ;;
           print "  - Internet connection is working" ;;
           sys_exit 1
       | OtherException _ =>
           error ("Unexpected error: " ++ exn_str e) ;;
           sys_exit 1
       | _ => raise e
       end).

(** *** [send_file] *)

Definition send_file (file repo : string) : M unit :=
  when (Py.falsy file)
    (error "File not specified" ;;
     print "Usage: gitup send <local_file> <user/repo[:path]>" ;;
     print "Example: gitup send myfile.txt user/myrepo:folder/file.txt" ;;
     sys_exit 1) ;;
  when (Py.falsy repo)
    (error "Repository not specified" ;;
     print "Usage: gitup send <local_file> <user/repo[:path]>" ;;
     print "Example: gitup send myfile.txt user/myrepo:folder/file.txt" ;;
     sys_exit 1) ;;
  g <- get_github_client ;;
  let file_path := file in
  let repo_path := repo in
  let invalid : M unit :=
    error "Invalid repository format" ;;
    print "Expected format: user/repo[:path]" ;;
    print "Valid examples:" ;;
    print "  - user/myrepo" ;;
    print "  - user/myrepo:file.txt" ;;
    print "  - user/myrepo:folder/file.txt" ;;
    sys_exit 1 in
  match parse_repo_path repo_path with
  | None => invalid
  | Some (repo_name, repo_file_path) =>
      when (Py.falsy repo_name) invalid ;;
      is_file <- os_path_isfile file_path ;;
      when (negb is_file)
        (error ("File not found: " ++ file_path) ;;
         print "Please verify:" ;;
         print "  - File path is correct" ;;
         print "  - File exists" ;;
         print "  - You have read permissions" ;;
         sys_exit 1) ;;
      repo <- try_ (get_repo g repo_name)
        (fun e =>
           match e with
           | GithubException _ _ =>
               error ("Repository not found: " ++ repo_name) ;;
               print "Please verify:" ;;
               print "  - Repository name is correct" ;;
               print "  - You have access to the repository" ;;
               print "  - Repository exists" ;;
               sys_exit 1
           | _ => raise e
           end) ;;
      let file_name := Py.or_else repo_file_path (OsPath.basename file_path) in
      try_
        (content <- open_read file_path ;;
         try_
           (contents <- get_contents repo file_name ;;
            sha <- contents_sha contents ;;
            update_file repo file_name ("Update " ++ file_name) content sha ;;
            success ("Updated " ++ file_name ++ " in " ++ repo_name))
           (fun e =>
              match e with
              | GithubException status _ =>
                  if (status =? 404)%Z then
                    create_file repo file_name ("Add " ++ file_name) content ;;
                    success ("Created " ++ file_name ++ " in " ++ repo_name)
                  else
                    error ("Upload failed: " ++ exn_str e) ;;
                    print "Possible causes:" ;;
                    print "  - File too large (GitHub limit)" ;;
                    print "  - No write permission" ;;
                    print "  - Filename conflict" ;;
                    sys_exit 1
              | _ => raise e
              end))
        (fun e =>
           match e with
           | GithubException _ _ | OtherException _ =>
               error ("Unexpected error: " ++ exn_str e) ;;
               sys_exit 1
           | _ => raise e
           end)
  end.

(** *** [copy] *)

(** The test of line 301: [src.startswith('.') or not ':' in src]. *)
Definition is_upload (src : string) : bool :=
  Py.startswith "." src || negb (Py.contains ":" src).

Definition backslash : ascii := ascii_of_nat 92.

(** The remote path of one file of a directory upload (line 341). *)
Definition dest_path_of (repo_path rel_path : string) : string :=
  Py.replace backslash "/" (OsPath.join repo_path rel_path).

(** The body of the loop of lines 338-360. *)
Definition upload_entry (repo : Repository) (repo_path src_path file_path : string)
  : M unit :=
  is_file <- os_path_isfile file_path ;;
  when is_file
    (rel_path <- relative_to file_path src_path ;;
     let dest_path := dest_path_of repo_path rel_path in
     try_
       (content <- open_read file_path ;;
        try_
          (contents <- get_contents repo dest_path ;;
           sha <- contents_sha contents ;;
           update_file repo dest_path ("Update " ++ dest_path) content sha)
          (fun e =>
             match e with
             | GithubException status _ =>
                 if (status =? 404)%Z then
                   create_file repo dest_path ("Add " ++ dest_path) content
                 else
                   error ("Failed to upload " ++ dest_path ++ ": " ++ exn_str e) ;;
                   sys_exit 1
             | _ => raise e
             end))
       (fun e =>
          match e with
          | GithubException _ _ | OtherException _ =>
              error ("Failed to upload " ++ file_path ++ ": " ++ exn_str e) ;;
              sys_exit 1
          | _ => raise e
          end)).

(** [len([f for f in files if f.is_file()])]. *)
Definition count_files (files : list string) : M nat :=
  fun s => (Ok (length (filter (fs_isfile (fs s)) files)), s, []).

(** The upload branch of [copy] (lines 303-395). *)
Definition copy_upload (g : Github) (src dst : string) : M unit :=
  let invalid : M unit :=
    error "Invalid destination repository format" ;;
    print "For upload, destination must be: user/repo[:path]" ;;
    print "Example: gitup copy ./myfile.txt user/myrepo:folder/" ;;
    sys_exit 1 in
  match parse_repo_path dst with
  | None => invalid
  | Some (repo_name, repo_path) =>
      when (Py.falsy repo_name) invalid ;;
      repo <- try_ (get_repo g repo_name)
        (fun e =>
           match e with
           | GithubException _ _ =>
               error ("Repository not found: " ++ repo_name) ;;
               print "Please verify:" ;;
               print "  - Repository name is correct" ;;
               print "  - You have access to the repository" ;;
               sys_exit 1
           | _ => raise e
           end) ;;
      let src_path := src in
      present <- os_path_exists src_path ;;
      when (negb present)
        (error ("Source not found: " ++ src) ;;
         print "Please verify the file or folder path" ;;
         sys_exit 1) ;;
      is_dir <- path_is_dir src_path ;;
      if is_dir then
        files <- path_rglob src_path ;;
        file_count <- count_files files ;;
        for_each files (upload_entry repo repo_path src_path) ;;
        success ("Uploaded " ++ str_nat file_count ++ " files to " ++ repo_name)
      else
        is_file <- os_path_isfile src_path ;;
        if is_file then
          let dest_path := Py.or_else repo_path (OsPath.basename src) in
          try_
            (content <- open_read src ;;
             try_
               (contents <- get_contents repo dest_path ;;
                sha <- contents_sha contents ;;
                update_file repo dest_path ("Update " ++ dest_path) content sha ;;
                success ("Updated " ++ dest_path ++ " in " ++ repo_name))
               (fun e =>
                  match e with
                  | GithubException status _ =>
                      if (status =? 404)%Z then
                        create_file repo dest_path ("Add " ++ dest_path) content ;;
                        success ("Created " ++ dest_path ++ " in " ++ repo_name)
                      else
                        error ("Upload failed: " ++ exn_str e) ;;
                        sys_exit 1
                  | _ => raise e
                  end))
            (fun e =>
               match e with
               | GithubException _ _ | OtherException _ =>
                   error ("Upload failed: " ++ exn_str e) ;;
                   sys_exit 1
               | _ => raise e
               end)
        else
          error ("Invalid source: " ++ src) ;;
          sys_exit 1
  end.

(** The download branch of [copy] (lines 397-453). *)
Definition copy_download (g : Github) (src dst : string) : M unit :=
  let invalid : M unit :=
    error "Invalid source repository format" ;;
    print "For download, source must be: user/repo:path" ;;
    print "Example: gitup copy user/myrepo:file.txt ./local/" ;;
    sys_exit 1 in
  match parse_repo_path src with
  | None => invalid
  | Some (repo_name, repo_path) =>
      when (Py.falsy repo_name) invalid ;;
      repo <- try_ (get_repo g repo_name)
        (fun e =>
           match e with
           | GithubException _ _ =>
               error ("Repository not found: " ++ repo_name) ;;
               sys_exit 1
           | _ => raise e
           end) ;;
      try_
        (contents <- get_contents repo repo_path ;;
         match contents with
         | Listing entries =>
             os_makedirs dst ;;
             let file_count := length entries in
             for_each entries
               (fun content =>
                  when (String.eqb (cf_type content) "file")
                    (text <- entry_content repo content ;;
                     file_content <- base64_b64decode text ;;
                     let local_path := OsPath.join dst (cf_name content) in
                     open_write local_path file_content)) ;;
             success ("Downloaded " ++ str_nat file_count ++ " files to " ++ dst)
         | Single entry =>
             file_content <- base64_b64decode (cf_content entry) ;;
             let local_path := OsPath.join dst (cf_name entry) in
             os_makedirs (OsPath.dirname local_path) ;;
             open_write local_path file_content ;;
             success ("Downloaded " ++ cf_name entry ++ " to " ++ local_path)
         end)
        (fun e =>
           match e with
           | GithubException _ _ =>
               error ("Download failed: " ++ exn_str e) ;;
               print "Please verify:" ;;
               print "  - File/folder path is correct" ;;
               print "  - File/folder exists in repository" ;;
               print "  - You have access to the content" ;;
               sys_exit 1
           | _ => raise e
           end)
  end.

Definition copy (src dst : string) : M unit :=
  when (Py.falsy src)
    (error "Source not specified" ;;
     print "Usage: gitup copy <source> <destination>" ;;
     print "Examples:" ;;
     print "  Upload: gitup copy ./folder user/repo:remote_folder" ;;
     print "  Download: gitup copy user/repo:file.txt ./local/" ;;
     sys_exit 1) ;;
  when (Py.falsy dst)
    (error "Destination not specified" ;;
     print "Usage: gitup copy <source> <destination>" ;;
     print "Examples:" ;;
     print "  Upload: gitup copy ./folder user/repo:remote_folder" ;;
     print "  Download: gitup copy user/repo:file.txt ./local/" ;;
     sys_exit 1) ;;
  g <- get_github_client ;;
  if is_upload src then copy_upload g src dst
  else copy_download g src dst.

(** *** [remove_file] *)

Definition remove_file (file : string) : M unit :=
  when (Py.falsy file)
    (error "File not specified" ;;
     print "Usage: gitup rm <user/repo:path>" ;;
     print "Example: gitup rm user/myrepo:file.txt" ;;
     sys_exit 1) ;;
  g <- get_github_client ;;
  let invalid : M unit :=
    error "Invalid repository format" ;;
    print "Expected format: user/repo:path" ;;
    print "Example: gitup rm user/myrepo:file.txt" ;;
    sys_exit 1 in
  match parse_repo_path file with
  | None => invalid
  | Some (repo_name, repo_path) =>
      when (Py.falsy repo_name) invalid ;;
      when (Py.falsy repo_path)
        (error "File path not specified" ;;
         print "You must specify which file to remove" ;;
         print "Example: gitup rm user/myrepo:file.txt" ;;
         sys_exit 1) ;;
      try_
        (repo <- get_repo g repo_name ;;
         contents <- get_contents repo repo_path ;;
         match contents with
         | Listing _ =>
             error ("Cannot remove directory: " ++ repo_path) ;;
             print "You must specify a file to remove" ;;
             sys_exit 1
         | Single entry =>
             delete_file repo repo_path ("Remove " ++ repo_path) (cf_sha entry) ;;
             success ("Removed " ++ repo_path ++ " from " ++ repo_name)
         end)
        (fun e =>
           match e with
           | GithubException status _ =>
               (if (status =? 404)%Z then
                  error ("File not found: " ++ repo_path) ;;
                  print "Please verify:" ;;
                  print "  - File path is correct" ;;
                  print "  - File exists in repository"
                else
                  error ("Remove failed: " ++ exn_str e) ;;
                  print "Please verify:" ;;
                  print "  - You have delete permissions" ;;
                  print "  - Repository is accessible") ;;
               sys_exit 1
           | _ => raise e
           end)
  end.

(** *** [list_files] *)

(** The line printed for one entry of a listing. *)
Definition entry_line (content : ContentFile) : string :=
  let icon := if String.eqb (cf_type content) "dir" then "📁" else "📄" in
  "  " ++ icon ++ " " ++ cf_name content.

Definition list_files (repo : string) : M unit :=
  g <- get_github_client ;;
  let repo_arg := if Py.falsy repo then ":." else repo in
  if String.eqb repo_arg ":." then
    try_
      (repo_list <- get_repos g ;;
       match repo_list with
       | [] => info "No repositories found"
       | _ =>
           user <- user_login g ;;
           print ("Repositories for " ++ user ++ ":") ;;
           for_each repo_list
             (fun r =>
                let visibility := if private r then "private" else "public" in
                print ("  " ++ full_name r ++ " (" ++ visibility ++ ")"))
       end)
      (fun e =>
         match e with
         | GithubException _ _ =>
             error ("Failed to fetch repositories: " ++ exn_str e) ;;
             sys_exit 1
         | _ => raise e
         end)
  else
    let invalid : M unit :=
      error "Invalid repository format" ;;
      print "Valid formats:" ;;
      print "  gitup ls :.                    (list your repositories)" ;;
      print "  gitup ls user/repo             (list repository root)" ;;
      print "  gitup ls user/repo:folder      (list specific folder)" ;;
      sys_exit 1 in
    match parse_repo_path repo_arg with
    | None => invalid
    | Some (repo_name, repo_path) =>
        when (Py.falsy repo_name) invalid ;;
        try_
          (repo <- get_repo g repo_name ;;
           contents <- get_contents repo repo_path ;;
           let path_display := Py.or_else repo_path "/" in
           print ("Contents of " ++ repo_name ++ ":" ++ path_display ++ ":") ;;
           match contents with
           | Listing entries =>
               for_each entries (fun content => print (entry_line content))
           | Single entry => print (entry_line entry)
           end)
          (fun e =>
             match e with
             | GithubException status _ =>
                 (if (status =? 404)%Z then
                    error ("Repository or path not found: "
                           ++ repo_name ++ ":" ++ repo_path) ;;
                    print "Please verify:" ;;
                    print "  - Repository name is correct" ;;
                    print "  - Path exists in repository" ;;
                    print "  - You have access to the repository"
                  else
                    error ("Failed to list files: " ++ exn_str e)) ;;
                 sys_exit 1
             | _ => raise e
             end)
    end.

(** *** [main] *)

(** What [parser.parse_args()] returns: the subcommand and its
    positional arguments, which argparse always sets (so that
    [hasattr(args, ...)] holds); an argument may be the empty string. *)
Inductive args : Type :=
| Login
| Send (file repo : string)
| Copy (src dst : string)
| Rm (file : string)
| Ls (repo : string).

(** The handler [set_defaults(func=...)] binds to each subcommand. *)
Definition func (a : args) : M unit :=
  match a with
  | Login => login
  | Send file repo => send_file file repo
  | Copy src dst => copy src dst
  | Rm file => remove_file file
  | Ls repo => list_files repo
  end.

(** [main]; [None] is a command line without a subcommand. *)
Definition main (a : option args) : M unit :=
  match a with
  | Some a => func a
  | None =>
      error "No command specified" ;;
      print "Available commands: login, send, copy, rm, ls" ;;
      print "Use 'gitup --help' for more information"
      (* followed by the usage text of [parser.print_help()] *)
  end.

End Gitup.

(** ** A simulated environment

    A small file system and a small in-memory hosting service, on which
    the handlers can be run.  Directories and files of the local file
    system are a list of paths; the service holds the blobs of its
    repositories and can be told to refuse reads or writes of given
    paths with a given HTTP status. *)

Module Sim.

(** *** Base64 *)

Definition b64_char (n : nat) : ascii :=
  if (n <? 26)%nat then ascii_of_nat (65 + n)
  else if (n <? 52)%nat then ascii_of_nat (97 + (n - 26))
  else if (n <? 62)%nat then ascii_of_nat (48 + (n - 52))
  else if (n =? 62)%nat then "+"%char
  else "/"%char.

Definition b64_val (c : ascii) : option nat :=
  let n := nat_of_ascii c in
  if ((65 <=? n) && (n <=? 90))%nat then Some (n - 65)
  else if ((97 <=? n) && (n <=? 122))%nat then Some (n - 97 + 26)
  else if ((48 <=? n) && (n <=? 57))%nat then Some (n - 48 + 52)
  else if (n =? 43)%nat then Some 62
  else if (n =? 47)%nat then Some 63
  else None.

Fixpoint b64encode (s : string) : string :=
  match s with
  | EmptyString => EmptyString
  | String a EmptyString =>
      let x := nat_of_ascii a in
      String (b64_char (x / 4))
        (String (b64_char (x mod 4 * 16)) "==")
  | String a (String b EmptyString) =>
      let x := nat_of_ascii a in
      let y := nat_of_ascii b in
      String (b64_char (x / 4))
        (String (b64_char (x mod 4 * 16 + y / 16))
           (String (b64_char (y mod 16 * 4)) "="))
  | String a (String b (String c rest)) =>
      let x := nat_of_ascii a in
      let y := nat_of_ascii b in
      let z := nat_of_ascii c in
      String (b64_char (x / 4))
        (String (b64_char (x mod 4 * 16 + y / 16))
           (String (b64_char (y mod 16 * 4 + z / 64))
              (String (b64_char (z mod 64)) (b64encode rest))))
  end.

(** The characters of the alphabet and the padding; the rest (line
    breaks) is skipped. *)
Fixpoint b64_symbols (s : string) : list (option nat) :=
  match s with
  | EmptyString => []
  | String c t =>
      match b64_val c with
      | Some v => Some v :: b64_symbols t
      | None =>
          if Ascii.eqb c "=" then None :: b64_symbols t else b64_symbols t
      end
  end.

Fixpoint b64_groups (l : list (option nat)) : option string :=
  match l with
  | [] => Some EmptyString
  | [Some p; Some q; None; None] =>
      Some (String (ascii_of_nat (p * 4 + q / 16)) EmptyString)
  | [Some p; Some q; Some r; None] =>
      Some (String (ascii_of_nat (p * 4 + q / 16))
              (String (ascii_of_nat (q mod 16 * 16 + r / 4)) EmptyString))
  | Some p :: Some q :: Some r :: Some t :: rest =>
      match b64_groups rest with
      | Some tail =>
          Some (String (ascii_of_nat (p * 4 + q / 16))
                  (String (ascii_of_nat (q mod 16 * 16 + r / 4))
                     (String (ascii_of_nat (r mod 4 * 64 + t)) tail)))
      | None => None
      end
  | _ => None
  end.

Definition sim_b64decode (text : string) : result string :=
  match b64_groups (b64_symbols text) with
  | Some data => Ok data
  | None => Raise (OtherException "Incorrect padding")
  end.

(** *** The local file system *)

(** A path is a regular file with its data, or a directory. *)
Inductive node : Type :=
| File (data : string)
| Dir.

Definition SimFS : Type := list (string * node).

Fixpoint lookup {A} (key : string) (l : list (string * A)) : option A :=
  match l with
  | [] => None
  | (k, v) :: rest => if String.eqb k key then Some v else lookup key rest
  end.

Fixpoint update {A} (key : string) (v : A) (l : list (string * A))
  : list (string * A) :=
  match l with
  | [] => [(key, v)]
  | (k, w) :: rest =>
      if String.eqb k key then (k, v) :: rest else (k, w) :: update key v rest
  end.

Fixpoint remove {A} (key : string) (l : list (string * A))
  : list (string * A) :=
  match l with
  | [] => []
  | (k, w) :: rest =>
      if String.eqb k key then remove key rest else (k, w) :: remove key rest
  end.

(** [Some rest] when [s] is [pre ++ rest]. *)
Fixpoint strip_prefix (pre s : string) : option string :=
  match pre, s with
  | EmptyString, _ => Some s
  | String a p, String b t => if Ascii.eqb a b then strip_prefix p t else None
  | String _ _, EmptyString => None
  end.

Definition under (base p : string) : option string :=
  match strip_prefix (base ++ "/") p with
  | Some EmptyString => None
  | r => r
  end.

Definition sim_exists (f : SimFS) (p : string) : bool :=
  match lookup p f with Some _ => true | None => false end.

Definition sim_isfile (f : SimFS) (p : string) : bool :=
  match lookup p f with Some (File _) => true | _ => false end.

Definition sim_isdir (f : SimFS) (p : string) : bool :=
  match lookup p f with Some Dir => true | _ => false end.

Definition sim_read (f : SimFS) (p : string) : result string :=
  match lookup p f with
  | Some (File data) => Ok data
  | Some Dir => Raise (OtherException ("[Errno 21] Is a directory: " ++ p))
  | None => Raise (OtherException ("[Errno 2] No such file or directory: " ++ p))
  end.

Definition sim_write (f : SimFS) (p data : string) : result unit * SimFS :=
  match lookup p f with
  | Some Dir => (Raise (OtherException ("[Errno 21] Is a directory: " ++ p)), f)
  | _ => (Ok tt, update p (File data) f)
  end.

Definition sim_makedirs (f : SimFS) (p : string) : result unit * SimFS :=
  match lookup p f with
  | Some (File _) => (Raise (OtherException ("[Errno 17] File exists: " ++ p)), f)
  | Some Dir => (Ok tt, f)
  | None =>
      if Py.falsy p
      then (Raise (OtherException "[Errno 2] No such file or directory: ''"), f)
      else (Ok tt, update p Dir f)
  end.

Definition sim_rglob (f : SimFS) (p : string) : list string :=
  map fst (filter (fun kv => match under p (fst kv) with
                             | Some _ => true
                             | None => false
                             end) f).

Definition sim_relative_to (p base : string) : result string :=
  match under base p with
  | Some rel => Ok rel
  | None =>
      Raise (OtherException (p ++ " is not in the subpath of " ++ base))
  end.

(** *** The hosting service *)

Record SimHub : Type := {
  (** token and the login it authenticates *)
  users : list (string * string);
  repos : list RepoSummary;
  (** the data of the blob at (repository, path) *)
  blobs : list (string * string);
  (** paths whose reading fails, with the status *)
  unreadable : list (string * Z);
  (** paths whose writing fails, with the status *)
  unwritable : list (string * Z)
}.

Definition blob_key (repo : Repository) (path : string) : string :=
  repo_name_of repo ++ ":" ++ path.

(** The version marker of a blob stands for the hash of its data. *)
Definition sha_of (data : string) : string := "blob " ++ data.

Definition with_blobs (h : SimHub) (b : list (string * string)) : SimHub :=
  {| users := users h; repos := repos h; blobs := b;
     unreadable := unreadable h; unwritable := unwritable h |}.

Definition http {A} (status : Z) (text : string) : result A :=
  Raise (GithubException status text).

Definition authenticated {A} (h : SimHub) (g : Github) (k : string -> result A)
  : result A :=
  match lookup (auth_token g) (users h) with
  | Some login_name => k login_name
  | None => http 401 "401 Bad credentials"
  end.

Definition sim_user_login (h : SimHub) (g : Github) : result string :=
  authenticated h g (fun login_name => Ok login_name).

Definition sim_get_repos (h : SimHub) (g : Github) : result (list RepoSummary) :=
  authenticated h g (fun _ => Ok (repos h)).

Definition sim_get_repo (h : SimHub) (g : Github) (name : string) : result unit :=
  authenticated h g (fun _ =>
    if existsb (fun r => String.eqb (full_name r) name) (repos h)
    then Ok tt else http 404 "404 Not Found").

(** The first component of a relative path, and whether more follow. *)
Fixpoint first_component (rel : string) : string * bool :=
  match rel with
  | EmptyString => (EmptyString, false)
  | String c t =>
      if Ascii.eqb c "/" then (EmptyString, true)
      else match first_component t with
           | (name, more) => (String c name, more)
           end
  end.

Fixpoint listing (prefix : string) (seen : list string)
  (b : list (string * string)) : list ContentFile :=
  match b with
  | [] => []
  | (k, data) :: rest =>
      match strip_prefix prefix k with
      | Some rel =>
          match first_component rel with
          | (name, more) =>
              if existsb (String.eqb name) seen then listing prefix seen rest
              else
                {| cf_name := name;
                   cf_type := if more then "dir" else "file";
                   cf_sha := if more then "tree" else sha_of data;
                   cf_content := if more then "" else b64encode data |}
                :: listing prefix (name :: seen) rest
          end
      | None => listing prefix seen rest
      end
  end.

Definition sim_get_contents (h : SimHub) (repo : Repository) (path : string)
  : result Contents :=
  authenticated h (client repo) (fun _ =>
    match lookup path (unreadable h) with
    | Some status => http status "request failed"
    | None =>
        match lookup (blob_key repo path) (blobs h) with
        | Some data =>
            Ok (Single {| cf_name := OsPath.basename path;
                          cf_type := "file";
                          cf_sha := sha_of data;
                          cf_content := b64encode data |})
        | None =>
            let prefix := if Py.falsy path then blob_key repo path
                          else blob_key repo path ++ "/" in
            match listing prefix [] (blobs h) with
            | [] => http 404 "404 Not Found"
            | entries => Ok (Listing entries)
            end
        end
    end).

Definition sim_entry_content (h : SimHub) (repo : Repository)
  (entry : ContentFile) : result string :=
  authenticated h (client repo) (fun _ =>
    match lookup (cf_name entry) (unreadable h) with
    | Some status => http status "request failed"
    | None => Ok (cf_content entry)
    end).

Definition sim_write_call (h : SimHub) (repo : Repository) (path : string)
  (k : result unit * SimHub) : result unit * SimHub :=
  match lookup (auth_token (client repo)) (users h) with
  | None => (http 401 "401 Bad credentials", h)
  | Some _ =>
      match lookup path (unwritable h) with
      | Some status => (http status "request failed", h)
      | None => k
      end
  end.

Definition sim_update_file (h : SimHub) (repo : Repository)
  (path message content sha : string) : result unit * SimHub :=
  sim_write_call h repo path
    (match lookup (blob_key repo path) (blobs h) with
     | Some data =>
         if String.eqb sha (sha_of data)
         then (Ok tt, with_blobs h (update (blob_key repo path) content (blobs h)))
         else (http 409 "409 Conflict", h)
     | None => (http 404 "404 Not Found", h)
     end).

Definition sim_create_file (h : SimHub) (repo : Repository)
  (path message content : string) : result unit * SimHub :=
  sim_write_call h repo path
    (match lookup (blob_key repo path) (blobs h) with
     | Some _ => (http 422 "422 Invalid request", h)
     | None =>
         (Ok tt, with_blobs h (update (blob_key repo path) content (blobs h)))
     end).

Definition sim_delete_file (h : SimHub) (repo : Repository)
  (path message sha : string) : result unit * SimHub :=
  sim_write_call h repo path
    (match lookup (blob_key repo path) (blobs h) with
     | Some data =>
         if String.eqb sha (sha_of data)
         then (Ok tt, with_blobs h (remove (blob_key repo path) (blobs h)))
         else (http 409 "409 Conflict", h)
     | None => (http 404 "404 Not Found", h)
     end).

#[export] Instance sim_env : Env SimFS SimHub := {
  fs_exists := sim_exists;
  fs_isfile := sim_isfile;
  fs_isdir := sim_isdir;
  fs_read := sim_read;
  fs_write := sim_write;
  fs_makedirs := sim_makedirs;
  fs_rglob := sim_rglob;
  path_relative_to := sim_relative_to;
  b64decode := sim_b64decode;
  gh_user_login := sim_user_login;
  gh_get_repos := sim_get_repos;
  gh_get_repo := sim_get_repo;
  gh_get_contents := sim_get_contents;
  gh_entry_content := sim_entry_content;
  gh_update_file := sim_update_file;
  gh_create_file := sim_create_file;
  gh_delete_file := sim_delete_file
}.

End Sim.

(** ** Vocabulary of the properties *)

(** The characters of a string. *)
Definition chars (s : string) : list ascii := list_ascii_of_string s.

(** [l] and [r] are what is left and right of the first [':'] of [s];
    without a [':'], [l] is all of [s] and [r] is empty. *)
Definition first_colon_split (s l r : string) : Prop :=
  ~ In ":"%char (chars l) /\
  (s = l ++ String ":" r \/ (s = l /\ r = "")).

(** A repository identifier the parser accepts. *)
Definition valid_repo_name (l : string) : Prop :=
  l <> "" /\ In "/"%char (chars l).

(** [src] is taken for a local path: it holds no colon, or begins
    with ['.']. *)
Definition looks_local (src : string) : Prop :=
  ~ In ":"%char (chars src) \/ exists t, src = String "." t.

(** The subclasses of [Exception]. *)
Definition is_Exception (e : exn) : bool :=
  match e with
  | GithubException _ _ | OtherException _ => true
  | SystemExit _ | KeyboardInterrupt => false
  end.

(** What [login] prints before it prompts. *)
Definition banner : list event :=
  [Print "GitHub Authentication";
   Print "";
   Print "To authenticate, you need a GitHub personal access token.";
   Print "How to get a token:";
   Print "  1. Go to https://github.com/settings/tokens";
   Print "  2. Click 'Generate new token (classic)'";
   Print "  3. Select required permissions (repo, user)";
   Print "  4. Copy the generated token";
   Print ""].

Section Vocabulary.

Context {F N : Type} {E : Env F N}.

(** The token file is there and readable; [g] is the client made of it. *)
Definition logged_in (st : @state F N) (g : Github) : Prop :=
  fs_exists (fs st) TOKEN_PATH = true /\
  exists text,
    fs_read (fs st) TOKEN_PATH = Ok text /\
    g = {| auth_token := Py.strip text |}.

(** Every event of every run of [m] satisfies [P]. *)
Definition emits {A} (P : event -> Prop) (m : @M F N A) : Prop :=
  forall s, Forall P (snd (m s)).

(** No run of [m] changes the local file system. *)
Definition keeps_fs {A} (m : @M F N A) : Prop :=
  forall s, fs (snd (fst (m s))) = fs s.

(** The required positional arguments of a command are not empty. *)
Definition args_given (a : args) : Prop :=
  match a with
  | Login => True
  | Send file repo => file <> "" /\ repo <> ""
  | Copy src dst => src <> "" /\ dst <> ""
  | Rm file => file <> ""
  | Ls _ => True
  end.

(** What [get_github_client] prints when there is no token file. *)
Definition auth_required : list event :=
  [Print "gitup ERR! Authentication required";
   Print "Run: gitup login";
   Print "Then provide your GitHub token when prompted"].

(** The calls of one successful upload of [content] to [path]: the entry
    is read and updated; or it is absent and created; or the update
    answers 404 and the file is created. *)
Definition uploaded (repo : Repository) (path content : string)
  (t : list event) : Prop :=
  (exists sha,
     t = [Call (GetContents repo path);
          Call (UpdateFile repo path ("Update " ++ path) content sha)]) \/
  t = [Call (GetContents repo path);
       Call (CreateFile repo path ("Add " ++ path) content)] \/
  (exists sha,
     t = [Call (GetContents repo path);
          Call (UpdateFile repo path ("Update " ++ path) content sha);
          Call (CreateFile repo path ("Add " ++ path) content)]).

(** What the specification says of one upload of [content] to [path] of
    [repo] from the remote state [n], for a run that yields [run] after
    the repository [repo] was fetched: the entry is read first and, when
    it is a file entry, updated with its sha; the file is created exactly
    when the read, or the update after a successful read, answers 404; a
    [GithubException] with another status from either makes the process
    exit with status 1, nothing created. *)
Definition update_or_create (n : N) (repo : Repository) (path content : string)
  (run : result unit * @state F N * list event) : Prop :=
  let read := gh_get_contents n repo path in
  let update sha :=
    fst (gh_update_file n repo path ("Update " ++ path) content sha) in
  (exists t,
     snd run =
       Call (GetRepo (client repo) (repo_name_of repo))
       :: Call (GetContents repo path) :: t) /\
  (forall entry,
     read = Ok (Single entry) ->
     exists t,
       snd run =
         Call (GetRepo (client repo) (repo_name_of repo))
         :: Call (GetContents repo path)
         :: Call (UpdateFile repo path ("Update " ++ path) content (cf_sha entry))
         :: t) /\
  (existsb is_create (snd run) = true <->
     (exists text, read = Raise (GithubException 404 text)) \/
     (exists entry text,
        read = Ok (Single entry) /\
        update (cf_sha entry) = Raise (GithubException 404 text))) /\
  (forall e,
     In e (snd run) -> is_create e = true ->
     e = Call (CreateFile repo path ("Add " ++ path) content)) /\
  (forall status text,
     status <> 404%Z ->
     read = Raise (GithubException status text) \/
     (exists entry,
        read = Ok (Single entry) /\
        update (cf_sha entry) = Raise (GithubException status text)) ->
     fst (fst run) = Raise (SystemExit 1) /\
     existsb is_create (snd run) = false).

(** The remote path a call names, if it names one. *)
Definition call_path (e : event) : option string :=
  match e with
  | Call (GetContents _ p) | Call (UpdateFile _ p _ _ _)
  | Call (CreateFile _ p _ _) | Call (DeleteFile _ p _ _) => Some p
  | _ => None
  end.

End Vocabulary.

(** ** Sample worlds *)

Module Samples.

Import Sim.

Definition site : RepoSummary := {| full_name := "alice/site"; private := false |}.

Definition alice : Github := {| auth_token := "tok" |}.

Definition site_repo : Repository :=
  {| client := alice; repo_name_of := "alice/site" |}.

(** The hosting service: one account, one repository with two blobs. *)
Definition hub : SimHub :=
  {| users := [("tok", "alice")];
     repos := [site];
     blobs := [("alice/site:README.md", "readme");
               ("alice/site:docs/a.md", "A")];
     unreadable := [];
     unwritable := [] |}.

(** The same service when the token may not push: GitHub answers a
    write with 404. *)
Definition hub_no_push : SimHub :=
  {| users := users hub; repos := repos hub; blobs := blobs hub;
     unreadable := [];
     unwritable := [("README.md", 404%Z)] |}.

(** The service holding an older [dest/a/c/d.txt] that it refuses to
    overwrite, with status 403. *)
Definition hub_refusing : SimHub :=
  {| users := users hub; repos := repos hub;
     blobs := blobs hub ++ [("alice/site:dest/a/c/d.txt", "old")];
     unreadable := [];
     unwritable := [("dest/a/c/d.txt", 403%Z)] |}.

(** A home with a token, a file and a directory tree. *)
Definition home : SimFS :=
  [("~/.gitup_token", File "tok
");
   ("notes.txt", File "hi");
   ("proj", Dir);
   ("proj/a", Dir);
   ("proj/a/b.txt", File "B");
   ("proj/a/c", Dir);
   ("proj/a/c/d.txt", File "D")].

(** A home without a token file. *)
Definition fresh_home : SimFS := [("notes.txt", File "hi")].

(** A directory with one file whose name holds a backslash. *)
Definition odd_name : string := "x" ++ String backslash "y.txt".

Definition odd_home : SimFS :=
  [("~/.gitup_token", File "tok");
   ("proj", Dir);
   ("proj/" ++ odd_name, File "X")].

Definition world (f : SimFS) (h : SimHub) (keys : list (result string))
  : @state SimFS SimHub :=
  {| fs := f; net := h; stdin := keys |}.

End Samples.

(** ** Vocabulary of the further properties *)

(** An entry [copy] downloads from a listing: one of type ['file']. *)
Definition is_file_entry (c : ContentFile) : bool :=
  String.eqb (cf_type c) "file".

(** The line [ls] prints for one repository. *)
Definition repo_line (r : RepoSummary) : string :=
  "  " ++ full_name r ++ " ("
  ++ (if private r then "private" else "public") ++ ")".

(** What [rm] prints for a [GithubException]. *)
Definition rm_report (status : Z) (text repo_path : string) : list event :=
  if (status =? 404)%Z then
    [Print ("gitup ERR! File not found: " ++ repo_path);
     Print "Please verify:";
     Print "  - File path is correct";
     Print "  - File exists in repository"]
  else
    [Print ("gitup ERR! Remove failed: " ++ text);
     Print "Please verify:";
     Print "  - You have delete permissions";
     Print "  - Repository is accessible"].

(** What [ls] prints for a [GithubException]. *)
Definition ls_report (status : Z) (text repo_name repo_path : string)
  : list event :=
  if (status =? 404)%Z then
    [Print ("gitup ERR! Repository or path not found: "
            ++ repo_name ++ ":" ++ repo_path);
     Print "Please verify:";
     Print "  - Repository name is correct";
     Print "  - Path exists in repository";
     Print "  - You have access to the repository"]
  else
    [Print ("gitup ERR! Failed to list files: " ++ text)].

(** The calls among the events of a trace. *)
Definition calls (t : list event) : list event := filter is_call t.

Section MoreVocabulary.

Context {F N : Type} {E : Env F N}.

(** No run of [m] changes the part [part] of the state. *)
Definition keeps {X A} (part : @state F N -> X) (m : @M F N A) : Prop :=
  forall s, part (snd (fst (m s))) = part s.

(** What [copy] does for the listing [entries] when it downloads it into
    [dst]: for each entry of type ['file'], in order, it fetches the
    content of the entry and writes what it decodes to [dst] joined with
    the name of the entry. *)
Definition downloaded (n : N) (repo : Repository) (dst : string)
  (entries : list ContentFile) (steps : list (list event)) : Prop :=
  Forall2
    (fun entry step =>
       exists text data,
         gh_entry_content n repo entry = Ok text /\
         b64decode text = Ok data /\
         step = [Call (GetEntry repo entry);
                 Write (OsPath.join dst (cf_name entry)) data])
    (filter is_file_entry entries) steps.

End MoreVocabulary.

(** *** More sample worlds *)

Module MoreSamples.

Import Sim Samples.

(** A home whose token path is a directory: the token cannot be read. *)
Definition locked_home : SimFS := [("~/.gitup_token", Dir)].

(** A service where the account has no repository. *)
Definition bare_hub : SimHub :=
  {| users := users hub; repos := []; blobs := [];
     unreadable := []; unwritable := [] |}.

(** The service refusing to read [README.md], with status 500. *)
Definition hub_broken : SimHub :=
  {| users := users hub; repos := repos hub; blobs := blobs hub;
     unreadable := [("README.md", 500%Z)];
     unwritable := [] |}.

(** White space beyond ASCII: a no-break space (U+00A0) and a next-line
    character (U+0085). *)
Definition nbsp : string := String (ascii_of_nat 160) "".

Definition nel : string := String (ascii_of_nat 133) "".

(** A blank input, and a token padded with white space. *)
Definition blank_input : string := " " ++ nbsp ++ nel ++ "  ".

Definition padded_token : string := nbsp ++ " tok" ++ nel ++ "
".

(** A home whose path [out] is a regular file. *)
Definition home_with_out_file : SimFS :=
  [("~/.gitup_token", File "tok"); ("out", File "taken")].

End MoreSamples.

(** * Properties *)
(** ** Strings *)

Lemma contains_In (c : ascii) (s : string) :
  Py.contains c s = true <-> In c (chars s).
Proof.
  induction s as [|a t IH]; simpl.
  - split; [discriminate | tauto].
  - rewrite orb_true_iff, IH, Ascii.eqb_eq. tauto.
Qed.

Lemma contains_not_In (c : ascii) (s : string) :
  Py.contains c s = false <-> ~ In c (chars s).
Proof.
  rewrite <- contains_In. destruct (Py.contains c s).
  - split; [discriminate | intros H; exfalso; apply H; reflexivity].
  - split; [intros _; discriminate | reflexivity].
Qed.

Lemma falsy_empty (s : string) : Py.falsy s = true <-> s = "".
Proof. destruct s; simpl; split; congruence. Qed.

Lemma falsy_nonempty (s : string) : Py.falsy s = false <-> s <> "".
Proof. destruct s; simpl; split; congruence. Qed.

(** [split1] cuts at the first occurrence of the separator. *)
Lemma split1_cases (c : ascii) (s : string) :
  (exists l r, Py.split1 c s = [l; r] /\ s = l ++ String c r /\ ~ In c (chars l)) \/
  (Py.split1 c s = [s] /\ ~ In c (chars s)).
Proof.
  induction s as [|a t IH]; simpl.
  - right. split; [reflexivity | tauto].
  - destruct (Ascii.eqb a c) eqn:Hac.
    + apply Ascii.eqb_eq in Hac. subst a. left. exists "", t.
      simpl. repeat split. tauto.
    + apply Ascii.eqb_neq in Hac.
      destruct IH as [(l & r & Hs & Ht & Hl) | [Hs Hl]]; rewrite Hs.
      * left. exists (String a l), r. simpl. repeat split.
        -- now rewrite Ht.
        -- intros [H | H]; [congruence | tauto].
      * right. split; [reflexivity|]. intros [H | H]; [congruence | tauto].
Qed.

Lemma first_colon_split_total (s : string) :
  exists l r, first_colon_split s l r /\
    nth 0 (Py.split1 ":" s) "" = l /\
    (if (1 <? length (Py.split1 ":" s))%nat
     then nth 1 (Py.split1 ":" s) "" else "") = r.
Proof.
  destruct (split1_cases ":" s) as [(l & r & Hs & Ht & Hl) | [Hs Hl]];
    rewrite Hs; simpl.
  - exists l, r. repeat split; auto.
  - exists s, "". repeat split; auto.
Qed.

Lemma app_colon_In (l r : string) : In ":"%char (chars (l ++ String ":" r)).
Proof. induction l; simpl; auto. Qed.

Lemma split1_app (c : ascii) (l r : string) :
  ~ In c (chars l) -> Py.split1 c (l ++ String c r) = [l; r].
Proof.
  induction l as [|a l IH]; simpl; intros Hl.
  - now rewrite Ascii.eqb_refl.
  - destruct (Ascii.eqb a c) eqn:Hac.
    + apply Ascii.eqb_eq in Hac. tauto.
    + rewrite IH; [reflexivity | tauto].
Qed.

Lemma first_colon_split_unique (s l r l' r' : string) :
  first_colon_split s l r -> first_colon_split s l' r' -> l = l' /\ r = r'.
Proof.
  intros [Hl Hs] [Hl' Hs'].
  destruct Hs as [Hs | [Hs ->]], Hs' as [Hs' | [Hs' ->]].
  - pose proof (split1_app ":" l r Hl) as H1.
    pose proof (split1_app ":" l' r' Hl') as H2.
    rewrite <- Hs in H1. rewrite <- Hs' in H2. rewrite H1 in H2.
    injection H2 as -> ->. auto.
  - exfalso. apply Hl'. rewrite <- Hs', Hs. apply app_colon_In.
  - exfalso. apply Hl. rewrite <- Hs, Hs'. apply app_colon_In.
  - split; congruence.
Qed.

Lemma split1_none (c : ascii) (s : string) :
  ~ In c (chars s) -> Py.split1 c s = [s].
Proof.
  induction s as [|a s IH]; simpl; intros Hs; [reflexivity|].
  destruct (Ascii.eqb a c) eqn:Hac.
  - apply Ascii.eqb_eq in Hac. tauto.
  - rewrite IH; [reflexivity | tauto].
Qed.

Lemma parse_trailing_colon (r : string) :
  r <> "" -> ~ In ":"%char (chars r) ->
  parse_repo_path (r ++ ":") = parse_repo_path r.
Proof.
  intros Hr Hc. unfold parse_repo_path.
  rewrite (split1_app ":" r "" Hc), (split1_none ":" r Hc).
  destruct r; [congruence | reflexivity].
Qed.

Lemma parse_valid (r : string) :
  valid_repo_name r -> ~ In ":"%char (chars r) ->
  parse_repo_path r = Some (r, "").
Proof.
  intros [Hr Hs] Hc. unfold parse_repo_path.
  rewrite (split1_none ":" r Hc). simpl.
  apply falsy_nonempty in Hr. apply contains_In in Hs. now rewrite Hr, Hs.
Qed.

(** C2. For every input string the path parser splits once on the first
    [':'], returns the left part as repository identifier and the
    (possibly empty) right part as in-repo path, and fails, with both
    components unset, exactly when the left part is empty or holds no
    ['/']; ["a/b:c/d"] parses to [("a/b", "c/d")], ["a/b"] to
    [("a/b", "")], and [""] fails to parse. *)
Theorem C2_parse_repo_path_spec :
  (forall s : string,
     exists l r,
       first_colon_split s l r /\
       (((l = "" \/ ~ In "/"%char (chars l)) /\ parse_repo_path s = None) \/
        (valid_repo_name l /\ parse_repo_path s = Some (l, r)))) /\
  parse_repo_path "a/b:c/d" = Some ("a/b", "c/d") /\
  parse_repo_path "a/b" = Some ("a/b", "") /\
  parse_repo_path "" = None.
Proof.
  split; [| repeat split].
  intros s.
  destruct (first_colon_split_total s) as (l & r & Hsplit & Hl & Hr).
  exists l, r. split; [exact Hsplit|].
  unfold parse_repo_path. rewrite Hl, Hr.
  destruct (Py.falsy s) eqn:Hs.
  - apply falsy_empty in Hs. subst s. left. split; [|reflexivity].
    left. destruct Hsplit as [_ [H | [H _]]]; destruct l; simpl in H;
      congruence.
  - destruct (Py.falsy l) eqn:Hfl; simpl.
    + left. apply falsy_empty in Hfl. auto.
    + destruct (Py.contains "/" l) eqn:Hc; simpl.
      * right. split; [|reflexivity]. split.
        -- now apply falsy_nonempty.
        -- now apply contains_In.
      * left. split; [|reflexivity]. right. now apply contains_not_In.
Qed.

(** ** Runs of computations *)

Section Runs.

Context {F N : Type} {E : Env F N}.

Implicit Types st s : @state F N.

Lemma bind_ok {A B} (m : M A) (k : A -> M B) st a s1 t1 :
  m st = (Ok a, s1, t1) ->
  bind m k st =
    (fst (fst (k a s1)), snd (fst (k a s1)), (t1 ++ snd (k a s1))%list).
Proof.
  intros H. unfold bind. rewrite H. destruct (k a s1) as [[r s2] t2].
  reflexivity.
Qed.

Lemma bind_raise {A B} (m : M A) (k : A -> M B) st e s1 t1 :
  m st = (Raise e, s1, t1) -> bind m k st = (Raise e, s1, t1).
Proof. intros H. unfold bind. now rewrite H. Qed.

Lemma bind_ret {A B} (a : A) (k : A -> M B) st : bind (ret a) k st = k a st.
Proof. unfold bind, ret. destruct (k a st) as [[r s2] t2]. reflexivity. Qed.

Lemma when_false_bind {B} (m : M unit) (k : unit -> M B) st :
  bind (when false m) k st = k tt st.
Proof. apply bind_ret. Qed.

Lemma client_absent st :
  fs_exists (fs st) TOKEN_PATH = false ->
  get_github_client st = (Raise (SystemExit 1), st, auth_required).
Proof.
  intros H. unfold get_github_client, bind, os_path_exists. rewrite H.
  reflexivity.
Qed.

Lemma client_present st g :
  logged_in st g -> get_github_client st = (Ok g, st, []).
Proof.
  intros [Hex (text & Hrd & ->)].
  unfold get_github_client, bind, os_path_exists, try_, open_read.
  rewrite Hex. simpl. rewrite Hrd. reflexivity.
Qed.

Lemma bind_ok_nil {A B} (m : M A) (k : A -> M B) st a s1 :
  m st = (Ok a, s1, []) -> bind m k st = k a s1.
Proof.
  intros H. unfold bind. rewrite H. destruct (k a s1) as [[r s2] t2].
  reflexivity.
Qed.

(** *** Rules for [emits] *)

Lemma emits_ret {A} P (a : A) : emits P (@ret F N A a).
Proof. intros s. constructor. Qed.

Lemma emits_raise {A} P e : emits P (@raise F N A e).
Proof. intros s. constructor. Qed.

Lemma emits_emit P e : P e -> emits P (@emit F N e).
Proof. intros H s. repeat constructor. exact H. Qed.

Lemma emits_bind {A B} P (m : @M F N A) (k : A -> @M F N B) :
  emits P m -> (forall a, emits P (k a)) -> emits P (bind m k).
Proof.
  intros Hm Hk s. specialize (Hm s). unfold bind.
  destruct (m s) as [[[a|e] s1] t1]; simpl in *; [|exact Hm].
  specialize (Hk a s1). destruct (k a s1) as [[r s2] t2]; simpl in *.
  apply Forall_app. auto.
Qed.

Lemma emits_try {A} P (m : @M F N A) (h : exn -> @M F N A) :
  emits P m -> (forall e, emits P (h e)) -> emits P (try_ m h).
Proof.
  intros Hm Hh s. specialize (Hm s). unfold try_.
  destruct (m s) as [[[a|e] s1] t1]; simpl in *; [exact Hm|].
  specialize (Hh e s1). destruct (h e s1) as [[r s2] t2]; simpl in *.
  apply Forall_app. auto.
Qed.

Lemma emits_when P b (m : @M F N unit) : emits P m -> emits P (when b m).
Proof. destruct b; simpl; [auto | intros _; apply emits_ret]. Qed.

Lemma emits_for_each {A} P (l : list A) (body : A -> @M F N unit) :
  (forall x, emits P (body x)) -> emits P (for_each l body).
Proof.
  intros Hb. induction l as [|x l IH]; simpl.
  - apply emits_ret.
  - apply emits_bind; auto.
Qed.

Lemma emits_silent {A} P (m : @M F N A) :
  (forall s, snd (m s) = []) -> emits P m.
Proof. intros H s. rewrite H. constructor. Qed.

Lemma emits_one {A} P (m : @M F N A) e :
  (forall s, snd (m s) = [e]) -> P e -> emits P m.
Proof. intros H He s. rewrite H. repeat constructor. exact He. Qed.

End Runs.

(** Decomposes a goal [emits P m] along the structure of [m]; what is
    left are the conditions [P e] on the events [m] names. *)
Ltac emits_prim e :=
  apply (emits_one _ _ e);
  [ intros ?; cbv beta iota delta
      [open_write os_makedirs update_file create_file delete_file];
    repeat match goal with
           | |- context [match ?x with _ => _ end] => destruct x
           end; reflexivity
  | ].

Ltac emits_step :=
  lazymatch goal with
  | |- emits _ (bind _ _) => apply emits_bind; [| intros ?]
  | |- emits _ (try_ _ _) => apply emits_try; [| intros ?]
  | |- emits _ (when _ _) => apply emits_when
  | |- emits _ (for_each _ _) => apply emits_for_each; intros ?
  | |- emits _ (ret _) => apply emits_ret
  | |- emits _ (raise _) => apply emits_raise
  | |- emits _ (sys_exit _) => apply emits_raise
  | |- emits _ (print _) => apply emits_emit
  | |- emits _ (error _) => apply emits_emit
  | |- emits _ (success _) => apply emits_emit
  | |- emits _ (info _) => apply emits_emit
  | |- emits _ (contents_sha ?c) => destruct c; [apply emits_ret | apply emits_raise]
  | |- emits _ (os_path_exists _) => apply emits_silent; reflexivity
  | |- emits _ (os_path_isfile _) => apply emits_silent; reflexivity
  | |- emits _ (path_is_dir _) => apply emits_silent; reflexivity
  | |- emits _ (path_rglob _) => apply emits_silent; reflexivity
  | |- emits _ (count_files _) => apply emits_silent; reflexivity
  | |- emits _ (relative_to _ _) => apply emits_silent; reflexivity
  | |- emits _ (open_read _) => apply emits_silent; reflexivity
  | |- emits _ (base64_b64decode _) => apply emits_silent; reflexivity
  | |- emits _ (input ?p) =>
      apply (emits_one _ _ (Input p));
      [intros s; unfold input; destruct (stdin s); reflexivity|]
  | |- emits _ (user_login ?g) =>
      apply (emits_one _ _ (Call (GetUser g))); [reflexivity|]
  | |- emits _ (get_repos ?g) =>
      apply (emits_one _ _ (Call (GetRepos g))); [reflexivity|]
  | |- emits _ (get_repo ?g ?n) =>
      apply (emits_one _ _ (Call (GetRepo g n))); [reflexivity|]
  | |- emits _ (get_contents ?r ?p) =>
      apply (emits_one _ _ (Call (GetContents r p))); [reflexivity|]
  | |- emits _ (entry_content ?r ?c) =>
      apply (emits_one _ _ (Call (GetEntry r c))); [reflexivity|]
  | |- emits _ (open_write ?p ?d) => emits_prim (Write p d)
  | |- emits _ (os_makedirs ?p) => emits_prim (Makedirs p)
  | |- emits _ (update_file ?r ?p ?m ?c ?h) =>
      emits_prim (Call (UpdateFile r p m c h))
  | |- emits _ (create_file ?r ?p ?m ?c) =>
      emits_prim (Call (CreateFile r p m c))
  | |- emits _ (delete_file ?r ?p ?m ?h) =>
      emits_prim (Call (DeleteFile r p m h))
  | |- emits _ (match ?x with _ => _ end) => destruct x
  end.

Ltac emits_all := repeat emits_step.

(** Unfolds the monad and the primitive computations of a run. *)
Ltac unfold_run :=
  cbv beta iota zeta delta
    [bind try_ ret raise emit when print error success info sys_exit input
     os_path_exists os_path_isfile path_is_dir path_rglob relative_to
     open_read open_write os_makedirs base64_b64decode user_login get_repos
     get_repo get_contents entry_content update_file create_file delete_file
     contents_sha count_files];
  cbn [fs net stdin with_fs with_net with_stdin app fst snd negb].

(** Continues a run after a fact about the environment was used. *)
Ltac step_run :=
  cbv beta iota zeta;
  cbn [fs net stdin with_fs with_net with_stdin app fst snd negb].


(** Case analysis on what the environment answers, until the run is a
    value. *)
Ltac by_cases_on_env :=
  repeat (step_run;
          match goal with
          | |- context [match gh_get_contents ?n ?r ?p with _ => _ end] =>
              let H := fresh "Hread" in
              destruct (gh_get_contents n r p) as [[?entry|?entries]|[?c| |?status ?text|?text]] eqn:H
          | |- context [match gh_update_file ?n ?r ?p ?m ?c ?h with _ => _ end] =>
              let H := fresh "Hupdate" in
              destruct (gh_update_file n r p m c h) as [[[]|[?c| |?status ?text|?text]] ?n'] eqn:H
          | |- context [match gh_create_file ?n ?r ?p ?m ?c with _ => _ end] =>
              let H := fresh "Hcreate" in
              destruct (gh_create_file n r p m c) as [[[]|[?c| |?status ?text|?text]] ?n'] eqn:H
          | |- context [(?status =? 404)%Z] =>
              destruct (Z.eqb_spec status 404); [subst status|]
          end).

Ltac solve_update_or_create :=
  by_cases_on_env;
  cbn [fst snd app];
  refine (conj _ (conj _ (conj _ (conj _ _))));
  try solve [eexists; reflexivity];
  try solve [intros ? Heq; try discriminate Heq; injection Heq as <-;
                  eexists; reflexivity];
  try solve
    [ cbn [existsb is_create orb]; split;
      [ intros Hc; try discriminate Hc;
        solve [ left; eexists; reflexivity
              | right; do 2 eexists; split; [reflexivity|];
                match goal with HU : gh_update_file _ _ _ _ _ _ = _ |- _ => rewrite HU end; reflexivity ]
      | intros [[? Hc] | (? & ? & Hc & Hu)];
        [ first [ reflexivity | discriminate Hc
                | injection Hc as Hc _; congruence ]
        | first [ reflexivity | discriminate Hc
                | injection Hc as <-; match goal with HU : gh_update_file _ _ _ _ _ _ = _ |- _ => rewrite HU in Hu end; cbn [fst] in Hu;
                  first [discriminate Hu | injection Hu as Hu _; congruence] ] ] ] ];
  try solve
    [ intros e; cbn [In]; intros Hm;
      repeat match type of Hm with
             | _ \/ _ =>
                 destruct Hm as [Hm | Hm];
                 [subst e; cbn [is_create]; intros Hc;
                  try discriminate Hc; reflexivity|]
             end;
      contradiction ];
  (intros ? ? Hs [Hc | (? & Hc & Hu)];
    [ try discriminate Hc; injection Hc as Hc _;
      try (symmetry in Hc); try contradiction; split; reflexivity
    | try discriminate Hc; injection Hc as <-; match goal with HU : gh_update_file _ _ _ _ _ _ = _ |- _ => rewrite HU in Hu end;
      cbn [fst] in Hu; try discriminate Hu; injection Hu as Hu _;
      try (symmetry in Hu); try contradiction; split; reflexivity ]).

Section Claims.

Context {F N : Type} {E : Env F N}.

Implicit Types st s : @state F N.

(** C5, as amended.  Without a token file every command other than
    [login] exits with status 1 before any call of the remote API and
    leaves the world as it was; what it prints is the
    authentication-required error whenever its required arguments are
    not empty. *)
Theorem C5_no_token_no_call (a : args) st :
  a <> Login ->
  fs_exists (fs st) TOKEN_PATH = false ->
  exists t,
    main (Some a) st = (Raise (SystemExit 1), st, t) /\
    Forall (fun e => is_call e = false) t /\
    (args_given a -> t = auth_required).
Proof.
  intros Ha Htok. pose proof (client_absent st Htok) as Hc.
  destruct a as [| file repo | src dst | file | repo]; simpl.
  - congruence.
  - unfold send_file.
    destruct file as [|c file]; [|destruct repo as [|d repo]].
    + eexists. split; [reflexivity|]. split; [repeat constructor | simpl; tauto].
    + eexists. split; [reflexivity|]. split; [repeat constructor | simpl; tauto].
    + cbn [Py.falsy]. rewrite !when_false_bind. eexists. split.
      * apply bind_raise. exact Hc.
      * split; [repeat constructor | reflexivity].
  - unfold copy.
    destruct src as [|c src]; [|destruct dst as [|d dst]].
    + eexists. split; [reflexivity|]. split; [repeat constructor | simpl; tauto].
    + eexists. split; [reflexivity|]. split; [repeat constructor | simpl; tauto].
    + cbn [Py.falsy]. rewrite !when_false_bind. eexists. split.
      * apply bind_raise. exact Hc.
      * split; [repeat constructor | reflexivity].
  - unfold remove_file.
    destruct file as [|c file].
    + eexists. split; [reflexivity|]. split; [repeat constructor | simpl; tauto].
    + cbn [Py.falsy]. rewrite !when_false_bind. eexists. split.
      * apply bind_raise. exact Hc.
      * split; [repeat constructor | reflexivity].
  - unfold list_files. eexists. split.
    + apply bind_raise. exact Hc.
    + split; [repeat constructor | reflexivity].
Qed.

(** C8. [rm] requires a non-empty in-repo path; it fetches the entry
    to obtain its sha; when the path resolves to a directory (a listing)
    it fails with the invalid-target error and exits 1 without calling
    the remote delete operation, the remote state unchanged; only when
    the path resolves to a single file does it delete, using that sha. *)
Theorem C8_rm_file_only (file : string) st g :
  logged_in st g ->
  (forall repo_name,
     parse_repo_path file = Some (repo_name, "") ->
     remove_file file st =
       (Raise (SystemExit 1), st,
        [Print "gitup ERR! File path not specified";
         Print "You must specify which file to remove";
         Print "Example: gitup rm user/myrepo:file.txt"])) /\
  (forall repo_name repo_path entries,
     parse_repo_path file = Some (repo_name, repo_path) ->
     repo_path <> "" ->
     let repo := {| client := g; repo_name_of := repo_name |} in
     gh_get_repo (net st) g repo_name = Ok tt ->
     gh_get_contents (net st) repo repo_path = Ok (Listing entries) ->
     remove_file file st =
       (Raise (SystemExit 1), st,
        [Call (GetRepo g repo_name);
         Call (GetContents repo repo_path);
         Print ("gitup ERR! " ++ "Cannot remove directory: " ++ repo_path);
         Print "You must specify a file to remove"])) /\
  (forall repo_name repo_path entry n',
     parse_repo_path file = Some (repo_name, repo_path) ->
     repo_path <> "" ->
     let repo := {| client := g; repo_name_of := repo_name |} in
     gh_get_repo (net st) g repo_name = Ok tt ->
     gh_get_contents (net st) repo repo_path = Ok (Single entry) ->
     gh_delete_file (net st) repo repo_path ("Remove " ++ repo_path)
       (cf_sha entry) = (Ok tt, n') ->
     remove_file file st =
       (Ok tt, with_net st n',
        [Call (GetRepo g repo_name);
         Call (GetContents repo repo_path);
         Call (DeleteFile repo repo_path ("Remove " ++ repo_path) (cf_sha entry));
         Print ("Removed " ++ repo_path ++ " from " ++ repo_name)])) /\
  (forall repo path message sha,
     In (Call (DeleteFile repo path message sha)) (snd (remove_file file st)) ->
     exists repo_name entry,
       parse_repo_path file = Some (repo_name, path) /\
       path <> "" /\
       repo = {| client := g; repo_name_of := repo_name |} /\
       gh_get_contents (net st) repo path = Ok (Single entry) /\
       sha = cf_sha entry).
Proof.
  intros Hin. pose proof (client_present st g Hin) as Hc.
  assert (Hfile : forall rn rp, parse_repo_path file = Some (rn, rp) ->
                    Py.falsy file = false /\ Py.falsy rn = false).
  { intros rn rp H. unfold parse_repo_path in H.
    destruct (Py.falsy file); [discriminate|]. split; [reflexivity|].
    destruct (Py.falsy (nth 0 (Py.split1 ":" file) "")) eqn:Hf;
      [discriminate|].
    destruct (negb _) in H; simpl in H; [discriminate|].
    injection H as <- _. exact Hf. }
  repeat split.
  - intros rn Hp. destruct (Hfile _ _ Hp) as [Hf Hrn].
    unfold remove_file. rewrite Hf, when_false_bind.
    rewrite (bind_ok_nil _ _ _ _ _ Hc), Hp, Hrn, when_false_bind.
    reflexivity.
  - intros rn rp l Hp Hrp repo Hrepo Hget.
    destruct (Hfile _ _ Hp) as [Hf Hrn].
    apply falsy_nonempty in Hrp.
    unfold remove_file. rewrite Hf, when_false_bind.
    rewrite (bind_ok_nil _ _ _ _ _ Hc), Hp, Hrn, when_false_bind.
    rewrite Hrp, when_false_bind.
    unfold_run. rewrite Hrepo. step_run. fold repo. rewrite Hget.
    reflexivity.
  - intros rn rp entry n' Hp Hrp repo Hrepo Hget Hdel.
    destruct (Hfile _ _ Hp) as [Hf Hrn].
    apply falsy_nonempty in Hrp.
    unfold remove_file. rewrite Hf, when_false_bind.
    rewrite (bind_ok_nil _ _ _ _ _ Hc), Hp, Hrn, when_false_bind.
    rewrite Hrp, when_false_bind.
    unfold_run. rewrite Hrepo. step_run. fold repo. rewrite Hget.
    step_run. rewrite Hdel. reflexivity.
  - intros repo path message sha.
    unfold remove_file.
    destruct (Py.falsy file) eqn:Hf.
    { unfold_run. simpl. intuition discriminate. }
    rewrite when_false_bind, (bind_ok_nil _ _ _ _ _ Hc).
    destruct (parse_repo_path file) as [[rn rp]|] eqn:Hp.
    2:{ unfold_run. simpl. intuition discriminate. }
    destruct (Hfile _ _ eq_refl) as [_ Hrn]. rewrite Hrn, when_false_bind.
    destruct (Py.falsy rp) eqn:Hrp.
    { unfold_run. simpl. intuition discriminate. }
    rewrite when_false_bind. apply falsy_nonempty in Hrp.
    unfold_run.
    destruct (gh_get_repo (net st) g rn) as [[]|e] eqn:Hrepo; step_run.
    2:{ destruct e as [c| |status text|text]; step_run;
          try destruct (status =? 404)%Z; simpl; intuition discriminate. }
    destruct (gh_get_contents (net st) _ rp) as [[entry|l]|e] eqn:Hget;
      step_run.
    + destruct (gh_delete_file _ _ _ _ _) as [[[]|e] n'] eqn:Hdel; step_run.
      * simpl. intros [H|[H|[H|[H|[]]]]]; try discriminate.
        injection H as <- <- <- <-. exists rn, entry. auto.
      * destruct e as [c| |status text|text]; step_run;
          try destruct (status =? 404)%Z; simpl;
          intros H; repeat (destruct H as [H|H]; try discriminate);
          try contradiction;
          injection H as <- <- <- <-; exists rn, entry; auto.
    + simpl. intuition discriminate.
    + destruct e as [c| |status text|text]; step_run;
        try destruct (status =? 404)%Z; simpl; intuition discriminate.
Qed.


Lemma copy_upload_no_local_write g src dst :
  emits (fun e => is_local_write e = false) (copy_upload g src dst).
Proof. unfold copy_upload, upload_entry. emits_all; reflexivity. Qed.

Lemma copy_download_no_remote_write g src dst :
  emits (fun e => is_remote_write e = false) (copy_download g src dst).
Proof. unfold copy_download. emits_all; reflexivity. Qed.

Lemma copy_dispatch (src dst : string) st g :
  src <> "" -> dst <> "" -> logged_in st g ->
  copy src dst st =
    (if is_upload src then copy_upload g src dst st
     else copy_download g src dst st).
Proof.
  intros Hs Hd Hin. apply falsy_nonempty in Hs, Hd.
  unfold copy. rewrite Hs, when_false_bind, Hd, when_false_bind.
  rewrite (bind_ok_nil _ _ _ _ _ (client_present st g Hin)).
  destruct (is_upload src); reflexivity.
Qed.

Lemma is_upload_spec (src : string) : is_upload src = true <-> looks_local src.
Proof.
  unfold is_upload, looks_local. rewrite orb_true_iff, negb_true_iff.
  rewrite contains_not_In. split.
  - intros [H | H]; [right | left; exact H].
    destruct src as [|c t]; simpl in H; [discriminate|].
    apply Ascii.eqb_eq in H. subst c. now exists t.
  - intros [H | [t ->]]; [right; exact H | left; reflexivity].
Qed.

(** C4. [copy] treats the operation as an upload (local to remote) if
    and only if [src] holds no colon or begins with ['.']; otherwise it
    treats it as a download (remote to local).  An upload runs the upload
    branch, which parses [dst] as the repository reference and never
    writes locally; a download runs the download branch, which parses
    [src] and never writes to the remote repository. *)
Theorem C4_copy_direction (src dst : string) st g :
  src <> "" -> dst <> "" -> logged_in st g ->
  (looks_local src ->
     copy src dst st = copy_upload g src dst st /\
     Forall (fun e => is_local_write e = false) (snd (copy src dst st))) /\
  (~ looks_local src ->
     copy src dst st = copy_download g src dst st /\
     Forall (fun e => is_remote_write e = false) (snd (copy src dst st))).
Proof.
  intros Hs Hd Hin. pose proof (copy_dispatch src dst st g Hs Hd Hin) as Hc.
  pose proof (is_upload_spec src) as Hu. rewrite Hc.
  destruct (is_upload src); split; intros Hl.
  - split; [reflexivity | apply copy_upload_no_local_write].
  - exfalso. apply Hl, Hu. reflexivity.
  - apply Hu in Hl. discriminate.
  - split; [reflexivity | apply copy_download_no_remote_write].
Qed.

(** C9. On [login], cancelling the prompt by an interrupt exits with
    status 0 and writes nothing; the token is written to the token file
    only after the single verification call has succeeded, and it is
    written then; when that call fails the token file is unchanged and
    the process exits 1. *)
Theorem C9_login_persists_after_verification st :
  (forall rest,
     stdin st = Raise KeyboardInterrupt :: rest ->
     exists t,
       login st = (Raise (SystemExit 0), with_stdin st rest, t) /\
       Forall (fun e => is_local_write e = false /\ is_call e = false) t) /\
  (forall text rest e,
     stdin st = Ok text :: rest ->
     Py.strip text <> "" ->
     is_Exception e = true ->
     let g := {| auth_token := Py.strip text |} in
     gh_user_login (net st) g = Raise e ->
     exists t,
       login st = (Raise (SystemExit 1), with_stdin st rest, t) /\
       Forall (fun e => is_local_write e = false) t /\
       filter is_call t = [Call (GetUser g)]) /\
  (forall path data,
     In (Write path data) (snd (login st)) ->
     exists text rest user t,
       stdin st = Ok text :: rest /\
       path = TOKEN_PATH /\ data = Py.strip text /\
       gh_user_login (net st) {| auth_token := data |} = Ok user /\
       snd (login st) =
         (banner ++
          [Input "GitHub token: ";
           Call (GetUser {| auth_token := data |});
           Write TOKEN_PATH data] ++ t)%list /\
       Forall (fun e => is_call e = false) t) /\
  (forall text rest user f',
     stdin st = Ok text :: rest ->
     Py.strip text <> "" ->
     let g := {| auth_token := Py.strip text |} in
     gh_user_login (net st) g = Ok user ->
     fs_write (fs st) TOKEN_PATH (Py.strip text) = (Ok tt, f') ->
     login st =
       (Ok tt, with_fs (with_stdin st rest) f',
        (banner ++
         [Input "GitHub token: ";
          Call (GetUser g);
          Write TOKEN_PATH (Py.strip text);
          Print ("Authenticated as " ++ user)])%list)).
Proof.
  split; [|split; [|split]].
  - intros rest Hin. unfold login. unfold_run. rewrite Hin. step_run.
    eexists. split; [reflexivity|]. repeat constructor.
  - intros text rest e Hin Htok He g Hv. apply falsy_nonempty in Htok.
    unfold login. unfold_run. rewrite Hin. step_run. rewrite Htok.
    step_run. fold g. rewrite Hv.
    destruct e as [c| |status txt|txt]; try discriminate; step_run;
      (eexists; split; [reflexivity|]; split; [repeat constructor | reflexivity]).
  - intros path data. unfold login. unfold_run.
    destruct (stdin st) as [|[text|e] rest] eqn:Hin; step_run.
    + simpl. intuition discriminate.
    + destruct (Py.falsy (Py.strip text)) eqn:Htok; step_run.
      { simpl. intuition discriminate. }
      destruct (gh_user_login (net st) _) as [user|e] eqn:Hv; step_run.
      * destruct (fs_write (fs st) TOKEN_PATH (Py.strip text)) as [[[]|e] f']
          eqn:Hw; step_run.
        -- intros H. simpl in H.
           repeat (destruct H as [H|H]; try discriminate); try contradiction.
           injection H as <- <-.
           exists text, rest, user. eexists. repeat split; try reflexivity.
           ++ exact Hv.
           ++ repeat constructor.
        -- destruct e as [c| |status txt|txt]; step_run; intros H; simpl in H;
             repeat (destruct H as [H|H]; try discriminate); try contradiction;
             injection H as <- <-;
             exists text, rest, user; eexists;
             (repeat split; try reflexivity; [exact Hv | repeat constructor]).
      * destruct e as [c| |status txt|txt]; step_run; simpl;
          intuition discriminate.
    + destruct e as [c| |status txt|txt]; step_run; simpl;
        intuition discriminate.
  - intros text rest user f' Hin Htok g Hv Hw. apply falsy_nonempty in Htok.
    unfold login. unfold_run. rewrite Hin. step_run. rewrite Htok.
    step_run. fold g. rewrite Hv. step_run. rewrite Hw. reflexivity.
Qed.


Lemma parse_some_inv (ref rn rp : string) :
  parse_repo_path ref = Some (rn, rp) ->
  Py.falsy ref = false /\ Py.falsy rn = false.
Proof.
  intros H. unfold parse_repo_path in H.
  destruct (Py.falsy ref); [discriminate|]. split; [reflexivity|].
  destruct (Py.falsy (nth 0 (Py.split1 ":" ref) "")) eqn:Hf; [discriminate|].
  destruct (negb _) in H; simpl in H; [discriminate|].
  injection H as <- _. exact Hf.
Qed.

Lemma send_file_update_or_create (file ref : string) st g repo_name repo_file_path content :
  logged_in st g ->
  parse_repo_path ref = Some (repo_name, repo_file_path) ->
  file <> "" ->
  fs_isfile (fs st) file = true ->
  fs_read (fs st) file = Ok content ->
  gh_get_repo (net st) g repo_name = Ok tt ->
  update_or_create (net st) {| client := g; repo_name_of := repo_name |}
    (Py.or_else repo_file_path (OsPath.basename file)) content
    (send_file file ref st).
Proof.
  intros Hin Hp Hfile Hisfile Hread Hrepo.
  destruct (parse_some_inv _ _ _ Hp) as [Href Hrn].
  apply falsy_nonempty in Hfile.
  unfold send_file.
  rewrite Hfile, when_false_bind, Href, when_false_bind.
  rewrite (bind_ok_nil _ _ _ _ _ (client_present st g Hin)), Hp.
  rewrite Hrn, when_false_bind.
  set (path := Py.or_else repo_file_path (OsPath.basename file)).
  set (repo := {| client := g; repo_name_of := repo_name |}).
  unfold_run. rewrite Hisfile. step_run. rewrite Hrepo, Hread. fold repo.
  unfold update_or_create. cbn [client repo_name_of].
  solve_update_or_create.
Qed.

Lemma copy_update_or_create (file ref : string) st g repo_name repo_path content :
  logged_in st g ->
  parse_repo_path ref = Some (repo_name, repo_path) ->
  file <> "" ->
  looks_local file ->
  fs_exists (fs st) file = true ->
  fs_isdir (fs st) file = false ->
  fs_isfile (fs st) file = true ->
  fs_read (fs st) file = Ok content ->
  gh_get_repo (net st) g repo_name = Ok tt ->
  update_or_create (net st) {| client := g; repo_name_of := repo_name |}
    (Py.or_else repo_path (OsPath.basename file)) content
    (copy file ref st).
Proof.
  intros Hin Hp Hfile Hlocal Hex Hdir Hisfile Hread Hrepo.
  destruct (parse_some_inv _ _ _ Hp) as [Href Hrn].
  assert (Hne : ref <> "") by now apply falsy_nonempty.
  rewrite (copy_dispatch file ref st g Hfile Hne Hin).
  apply is_upload_spec in Hlocal. rewrite Hlocal.
  unfold copy_upload. rewrite Hp, Hrn, when_false_bind.
  set (path := Py.or_else repo_path (OsPath.basename file)).
  set (repo := {| client := g; repo_name_of := repo_name |}).
  unfold_run. rewrite Hrepo. step_run. rewrite Hex. step_run.
  rewrite Hdir, Hisfile, Hread. fold repo.
  unfold update_or_create. cbn [client repo_name_of].
  solve_update_or_create.
Qed.

(** C1, as amended.  [send], and [copy] when it uploads a single file,
    first read the target with get-contents and, when the read returns a
    file entry, attempt an update with that entry's sha; they create the
    file if and only if the read, or the update that follows a
    successful read, fails with HTTP 404; a [GithubException] with any
    other status from the read or the update makes the process exit with
    status 1 without creating the file. *)
Theorem C1_update_or_create_on_404
  (file ref : string) st g repo_name repo_path content :
  logged_in st g ->
  parse_repo_path ref = Some (repo_name, repo_path) ->
  file <> "" ->
  fs_isfile (fs st) file = true ->
  fs_read (fs st) file = Ok content ->
  gh_get_repo (net st) g repo_name = Ok tt ->
  let repo := {| client := g; repo_name_of := repo_name |} in
  let path := Py.or_else repo_path (OsPath.basename file) in
  update_or_create (net st) repo path content (send_file file ref st) /\
  (looks_local file ->
   fs_exists (fs st) file = true ->
   fs_isdir (fs st) file = false ->
   update_or_create (net st) repo path content (copy file ref st)).
Proof.
  intros Hin Hp Hfile Hisfile Hread Hrepo repo path. split.
  - now apply send_file_update_or_create.
  - intros Hlocal Hex Hdir. now apply copy_update_or_create.
Qed.

(** C10. When the repository reference ends in a colon with an empty
    in-repo path, [send] and the single-file upload of [copy] run exactly
    as they do without the colon, and the target they read, update or
    create is the base name of the local file. *)
Theorem C10_empty_path_is_base_name (file r : string) st g content :
  valid_repo_name r ->
  ~ In ":"%char (chars r) ->
  logged_in st g ->
  file <> "" ->
  fs_isfile (fs st) file = true ->
  fs_read (fs st) file = Ok content ->
  gh_get_repo (net st) g r = Ok tt ->
  let repo := {| client := g; repo_name_of := r |} in
  let target := OsPath.basename file in
  parse_repo_path (r ++ ":") = Some (r, "") /\
  send_file file (r ++ ":") st = send_file file r st /\
  update_or_create (net st) repo target content (send_file file (r ++ ":") st) /\
  (looks_local file ->
   fs_exists (fs st) file = true ->
   fs_isdir (fs st) file = false ->
   copy file (r ++ ":") st = copy file r st /\
   update_or_create (net st) repo target content (copy file (r ++ ":") st)).
Proof.
  intros Hvalid Hcolon Hin Hfile Hisfile Hread Hrepo repo target.
  assert (Hr : r <> "") by apply Hvalid.
  pose proof (parse_trailing_colon r Hr Hcolon) as Heq.
  pose proof (parse_valid r Hvalid Hcolon) as Hp.
  assert (Hp' : parse_repo_path (r ++ ":") = Some (r, "")) by congruence.
  assert (Hnonempty : r ++ ":" <> "") by (destruct r; simpl; congruence).
  apply falsy_nonempty in Hr, Hnonempty.
  split; [exact Hp'|]. split; [|split].
  - unfold send_file. cbv zeta. rewrite Heq, Hr, Hnonempty. reflexivity.
  - apply (send_file_update_or_create file (r ++ ":") st g r "" content);
      assumption.
  - intros Hlocal Hex Hdir. split.
    + apply is_upload_spec in Hlocal.
      unfold copy. rewrite Hlocal. unfold copy_upload. cbv zeta.
      rewrite Heq, Hr, Hnonempty. reflexivity.
    + apply (copy_update_or_create file (r ++ ":") st g r "" content);
        assumption.
Qed.

(** C3, as amended.  When [copy] downloads and the remote path resolves
    to a single file entry, the decoded content is written to the file
    named after the entry inside [dst], that is to
    [os.path.join(dst, name)]; [dst] and its parents are created as
    directories. *)
Theorem C3_download_into_dst
  (src dst : string) st g repo_name repo_path entry data :
  src <> "" -> dst <> "" ->
  logged_in st g ->
  ~ looks_local src ->
  parse_repo_path src = Some (repo_name, repo_path) ->
  let repo := {| client := g; repo_name_of := repo_name |} in
  gh_get_repo (net st) g repo_name = Ok tt ->
  gh_get_contents (net st) repo repo_path = Ok (Single entry) ->
  b64decode (cf_content entry) = Ok data ->
  let local_path := OsPath.join dst (cf_name entry) in
  (forall f1 f2,
     fs_makedirs (fs st) (OsPath.dirname local_path) = (Ok tt, f1) ->
     fs_write f1 local_path data = (Ok tt, f2) ->
     copy src dst st =
       (Ok tt, with_fs st f2,
        [Call (GetRepo g repo_name);
         Call (GetContents repo repo_path);
         Makedirs (OsPath.dirname local_path);
         Write local_path data;
         Print ("Downloaded " ++ cf_name entry ++ " to " ++ local_path)])) /\
  (forall path bytes,
     In (Write path bytes) (snd (copy src dst st)) ->
     path = local_path /\ bytes = data).
Proof.
  intros Hsrc Hdst Hin Hremote Hp repo Hrepo Hget Hdec local_path.
  destruct (parse_some_inv _ _ _ Hp) as [_ Hrn].
  rewrite (copy_dispatch src dst st g Hsrc Hdst Hin).
  destruct (is_upload src) eqn:Hu.
  { exfalso. apply Hremote, is_upload_spec, Hu. }
  unfold copy_download. rewrite Hp, Hrn, when_false_bind.
  unfold_run. rewrite Hrepo. step_run. fold repo. rewrite Hget. step_run.
  rewrite Hdec. step_run. fold local_path. split.
  - intros f1 f2 Hmk Hwr. rewrite Hmk. step_run. rewrite Hwr. reflexivity.
  - intros path bytes.
    destruct (fs_makedirs (fs st) (OsPath.dirname local_path))
      as [[[]|e] f1]; step_run.
    + destruct (fs_write f1 local_path data) as [[[]|e] f2]; step_run.
      * cbn [In]. intros H.
        repeat match type of H with _ \/ _ => destruct H as [H|H] end;
          try discriminate H; try contradiction.
        injection H as <- <-. auto.
      * destruct e; step_run; cbn [In]; intros H;
          repeat match type of H with _ \/ _ => destruct H as [H|H] end;
          try discriminate H; try contradiction;
          injection H as <- <-; auto.
    + destruct e; step_run; cbn [In]; intros H;
        repeat match type of H with _ \/ _ => destruct H as [H|H] end;
        try discriminate H; try contradiction.
Qed.


Lemma bind_assoc {A B C} (m : @M F N A) (k : A -> M B) (h : B -> M C) s :
  bind (bind m k) h s = bind m (fun a => bind (k a) h) s.
Proof.
  unfold bind. destruct (m s) as [[[a|e] s1] t1]; [|reflexivity].
  destruct (k a s1) as [[[b|e] s2] t2]; [|reflexivity].
  destruct (h b s2) as [[r s3] t3]. now rewrite app_assoc.
Qed.

Lemma bind_ext {A B} (m : @M F N A) (k k' : A -> M B) s :
  (forall a s1, k a s1 = k' a s1) -> bind m k s = bind m k' s.
Proof.
  intros H. unfold bind. destruct (m s) as [[[a|e] s1] t1]; [|reflexivity].
  now rewrite H.
Qed.

Lemma for_each_app {A} (l1 l2 : list A) (body : A -> @M F N unit) s :
  for_each (l1 ++ l2)%list body s =
    bind (for_each l1 body) (fun _ => for_each l2 body) s.
Proof.
  revert s. induction l1 as [|x l1 IH]; intros s; simpl.
  - now rewrite bind_ret.
  - rewrite bind_assoc. apply bind_ext. intros _ s1. apply IH.
Qed.

(** One round of the loop of a directory upload that ends normally has
    skipped a path that is no file, or has uploaded the file. *)
Lemma upload_entry_ok repo rp src p s s' t :
  upload_entry repo rp src p s = (Ok tt, s', t) ->
  fs s' = fs s /\
  ((fs_isfile (fs s) p = false /\ t = []) \/
   (fs_isfile (fs s) p = true /\
    exists rel c,
      path_relative_to p src = Ok rel /\
      fs_read (fs s) p = Ok c /\
      uploaded repo (dest_path_of rp rel) c t)).
Proof.
  unfold upload_entry. unfold_run.
  destruct (fs_isfile (fs s) p) eqn:Hf; step_run.
  2:{ intros H. injection H as <- <-. auto. }
  destruct (path_relative_to p src) as [rel|e] eqn:Hrel; step_run;
    [|discriminate].
  destruct (fs_read (fs s) p) as [c|e] eqn:Hc; step_run.
  2:{ destruct e; step_run; discriminate. }
  set (d := dest_path_of rp rel).
  by_cases_on_env; intros H; try discriminate H; injection H as <- <-;
    (split; [reflexivity|]); right; (split; [reflexivity|]);
    exists rel, c; repeat split; unfold uploaded; fold d; eauto.
Qed.

Lemma upload_entry_keeps_fs repo rp src p : keeps_fs (upload_entry repo rp src p).
Proof.
  intros s. unfold upload_entry. unfold_run.
  destruct (fs_isfile (fs s) p); step_run; [|reflexivity].
  destruct (path_relative_to p src) as [rel|e]; step_run; [|reflexivity].
  destruct (fs_read (fs s) p) as [c|e]; step_run.
  2:{ destruct e; reflexivity. }
  by_cases_on_env; reflexivity.
Qed.

Lemma for_each_keeps_fs {A} (l : list A) (body : A -> @M F N unit) :
  (forall x, keeps_fs (body x)) -> keeps_fs (for_each l body).
Proof.
  intros Hb. induction l as [|x l IH]; intros s; simpl; [reflexivity|].
  unfold bind. specialize (Hb x s).
  destruct (body x s) as [[[[]|e] s1] t1]; simpl in *; [|exact Hb].
  specialize (IH s1). destruct (for_each l body s1) as [[r s2] t2].
  simpl in *. congruence.
Qed.

Lemma upload_loop_ok repo rp src files s s' t :
  for_each files (upload_entry repo rp src) s = (Ok tt, s', t) ->
  exists ts,
    t = concat ts /\
    Forall2
      (fun p tp =>
         exists rel c,
           path_relative_to p src = Ok rel /\
           fs_read (fs s) p = Ok c /\
           uploaded repo (dest_path_of rp rel) c tp)
      (filter (fs_isfile (fs s)) files) ts.
Proof.
  revert s t. induction files as [|p files IH]; intros s t; simpl.
  - intros H. injection H as <- <-. exists []. split; constructor.
  - unfold bind.
    destruct (upload_entry repo rp src p s) as [[[[]|e] s1] t1] eqn:Hp;
      [|discriminate].
    destruct (for_each files (upload_entry repo rp src) s1)
      as [[r s2] t2] eqn:Hrest.
    intros H. injection H as -> -> <-.
    destruct (upload_entry_ok _ _ _ _ _ _ _ Hp) as [Hfs Hcase].
    destruct (IH _ _ Hrest) as (ts & -> & Hall). rewrite Hfs in Hall.
    destruct Hcase as [[Hf ->] | [Hf Hup]]; rewrite Hf.
    + exists ts. auto.
    + exists (t1 :: ts). split; [reflexivity|]. constructor; assumption.
Qed.

Lemma replace_absent (a b : ascii) (s : string) :
  ~ In a (chars s) -> Py.replace a b s = s.
Proof.
  induction s as [|c s IH]; simpl; intros H; [reflexivity|].
  destruct (Ascii.eqb c a) eqn:Hc.
  - apply Ascii.eqb_eq in Hc. tauto.
  - rewrite IH; [reflexivity | tauto].
Qed.

(** What [copy] does from the start of a directory upload on. *)
Lemma copy_directory (src dst : string) st g repo_name repo_path :
  src <> "" -> dst <> "" ->
  logged_in st g ->
  looks_local src ->
  parse_repo_path dst = Some (repo_name, repo_path) ->
  gh_get_repo (net st) g repo_name = Ok tt ->
  fs_exists (fs st) src = true ->
  fs_isdir (fs st) src = true ->
  let repo := {| client := g; repo_name_of := repo_name |} in
  let files := fs_rglob (fs st) src in
  copy src dst st =
    match for_each files (upload_entry repo repo_path src) st with
    | (Ok _, s1, t1) =>
        (Ok tt, s1,
         Call (GetRepo g repo_name)
         :: t1 ++
            [Print ("Uploaded "
                    ++ str_nat (length (filter (fs_isfile (fs st)) files))
                    ++ " files to " ++ repo_name)])%list
    | (Raise e, s1, t1) => (Raise e, s1, Call (GetRepo g repo_name) :: t1)
    end.
Proof.
  intros Hsrc Hdst Hin Hlocal Hp Hrepo Hex Hdir repo files.
  destruct (parse_some_inv _ _ _ Hp) as [_ Hrn].
  rewrite (copy_dispatch src dst st g Hsrc Hdst Hin).
  apply is_upload_spec in Hlocal. rewrite Hlocal.
  unfold copy_upload. rewrite Hp, Hrn, when_false_bind.
  unfold_run. rewrite Hrepo. step_run. rewrite Hex. step_run. rewrite Hdir.
  fold repo files.
  destruct (for_each files (upload_entry repo repo_path src) st)
    as [[[[]|e] s1] t1]; reflexivity.
Qed.

(** C6, as amended.  A directory upload enumerates the paths under the
    source directory recursively and uploads every file among them, in
    that order, to the destination path joined with the path of the file
    relative to the source directory, every backslash of the joined path
    replaced by ['/']; where the joined path holds no backslash the
    relative structure is preserved exactly. *)
Theorem C6_directory_upload_paths
  (src dst : string) st g repo_name repo_path s' t :
  src <> "" -> dst <> "" ->
  logged_in st g ->
  looks_local src ->
  parse_repo_path dst = Some (repo_name, repo_path) ->
  gh_get_repo (net st) g repo_name = Ok tt ->
  fs_exists (fs st) src = true ->
  fs_isdir (fs st) src = true ->
  copy src dst st = (Ok tt, s', t) ->
  let repo := {| client := g; repo_name_of := repo_name |} in
  let files := filter (fs_isfile (fs st)) (fs_rglob (fs st) src) in
  (exists ts,
     t = (Call (GetRepo g repo_name)
          :: concat ts ++
             [Print ("Uploaded " ++ str_nat (length files)
                     ++ " files to " ++ repo_name)])%list /\
     Forall2
       (fun file calls =>
          exists rel content,
            path_relative_to file src = Ok rel /\
            fs_read (fs st) file = Ok content /\
            uploaded repo
              (Py.replace backslash "/" (OsPath.join repo_path rel))
              content calls)
       files ts) /\
  (forall rel,
     ~ In backslash (chars (OsPath.join repo_path rel)) ->
     dest_path_of repo_path rel = OsPath.join repo_path rel).
Proof.
  intros Hsrc Hdst Hin Hlocal Hp Hrepo Hex Hdir Hrun repo files.
  split; [| intros rel; apply replace_absent].
  rewrite (copy_directory src dst st g repo_name repo_path) in Hrun
    by assumption.
  fold repo in Hrun.
  destruct (for_each (fs_rglob (fs st) src) (upload_entry repo repo_path src) st)
    as [[[[]|e] s1] t1] eqn:Hloop; [|discriminate].
  injection Hrun as <- <-.
  destruct (upload_loop_ok _ _ _ _ _ _ _ Hloop) as (ts & -> & Hall).
  exists ts. split; [reflexivity | exact Hall].
Qed.

(** C7. When, during a directory upload, the upload of a file fails
    with a remote error other than 404 (from the read, from the update,
    or from the create that follows a 404), the process exits with
    status 1 at that file: no later file is touched, nothing is deleted,
    and the remote repository stays as the uploads before the failing one
    (and the failing requests themselves) left it. *)
Theorem C7_directory_upload_aborts
  (src dst : string) st g repo_name repo_path
  (before after : list string) (file rel content : string) s1 t1 :
  src <> "" -> dst <> "" ->
  logged_in st g ->
  looks_local src ->
  parse_repo_path dst = Some (repo_name, repo_path) ->
  gh_get_repo (net st) g repo_name = Ok tt ->
  fs_exists (fs st) src = true ->
  fs_isdir (fs st) src = true ->
  fs_rglob (fs st) src = (before ++ file :: after)%list ->
  let repo := {| client := g; repo_name_of := repo_name |} in
  for_each before (upload_entry repo repo_path src) st = (Ok tt, s1, t1) ->
  fs_isfile (fs st) file = true ->
  path_relative_to file src = Ok rel ->
  fs_read (fs st) file = Ok content ->
  let path := dest_path_of repo_path rel in
  forall status text,
    status <> 404%Z ->
    let failure :=
      Print ("gitup ERR! Failed to upload " ++ path ++ ": " ++ text) in
    (gh_get_contents (net s1) repo path = Raise (GithubException status text) ->
     copy src dst st =
       (Raise (SystemExit 1), s1,
        Call (GetRepo g repo_name)
        :: t1 ++ [Call (GetContents repo path); failure])%list) /\
    (forall entry n2,
       gh_get_contents (net s1) repo path = Ok (Single entry) ->
       gh_update_file (net s1) repo path ("Update " ++ path) content
         (cf_sha entry) = (Raise (GithubException status text), n2) ->
       copy src dst st =
         (Raise (SystemExit 1), with_net s1 n2,
          Call (GetRepo g repo_name)
          :: t1 ++
             [Call (GetContents repo path);
              Call (UpdateFile repo path ("Update " ++ path) content
                      (cf_sha entry));
              failure])%list) /\
    (forall any n2,
       gh_get_contents (net s1) repo path = Raise (GithubException 404 any) ->
       gh_create_file (net s1) repo path ("Add " ++ path) content =
         (Raise (GithubException status text), n2) ->
       copy src dst st =
         (Raise (SystemExit 1), with_net s1 n2,
          Call (GetRepo g repo_name)
          :: t1 ++
             [Call (GetContents repo path);
              Call (CreateFile repo path ("Add " ++ path) content);
              Print ("gitup ERR! Failed to upload " ++ file ++ ": " ++ text)])%list) /\
    (forall entry any n2 n3,
       gh_get_contents (net s1) repo path = Ok (Single entry) ->
       gh_update_file (net s1) repo path ("Update " ++ path) content
         (cf_sha entry) = (Raise (GithubException 404 any), n2) ->
       gh_create_file n2 repo path ("Add " ++ path) content =
         (Raise (GithubException status text), n3) ->
       copy src dst st =
         (Raise (SystemExit 1), with_net s1 n3,
          Call (GetRepo g repo_name)
          :: t1 ++
             [Call (GetContents repo path);
              Call (UpdateFile repo path ("Update " ++ path) content
                      (cf_sha entry));
              Call (CreateFile repo path ("Add " ++ path) content);
              Print ("gitup ERR! Failed to upload " ++ file ++ ": " ++ text)])%list) /\
    Forall (fun e => is_delete e = false) t1.
Proof.
  intros Hsrc Hdst Hin Hlocal Hp Hrepo Hex Hdir Hfiles repo Hbefore
    Hisfile Hrel Hread path status text Hstatus failure.
  pose proof (copy_directory src dst st g repo_name repo_path
                Hsrc Hdst Hin Hlocal Hp Hrepo Hex Hdir) as Hcopy.
  cbv zeta in Hcopy. fold repo in Hcopy.
  rewrite Hfiles, for_each_app in Hcopy.
  assert (Hfs : fs s1 = fs st).
  { pose proof (for_each_keeps_fs before (upload_entry repo repo_path src)
                  (upload_entry_keeps_fs repo repo_path src) st) as H.
    now rewrite Hbefore in H. }
  assert (Hstep : forall r s2 t2,
            upload_entry repo repo_path src file s1 = (Raise r, s2, t2) ->
            copy src dst st =
              (Raise r, s2, (Call (GetRepo g repo_name) :: t1 ++ t2)%list)).
  { intros r s2 t2 H. rewrite Hcopy. unfold bind at 1. rewrite Hbefore.
    simpl for_each. unfold bind at 1. rewrite H. reflexivity. }
  apply Z.eqb_neq in Hstatus. rewrite <- Hfs in Hisfile, Hread.
  split; [|split; [|split; [|split]]].
  - intros Hget. apply Hstep. unfold upload_entry. unfold_run.
    rewrite Hisfile. step_run. rewrite Hrel. step_run. rewrite Hread.
    fold path. rewrite Hget. step_run. rewrite Hstatus. reflexivity.
  - intros entry n2 Hget Hupd. apply Hstep. unfold upload_entry. unfold_run.
    rewrite Hisfile. step_run. rewrite Hrel. step_run. rewrite Hread.
    fold path. rewrite Hget. step_run. rewrite Hupd. step_run.
    rewrite Hstatus. reflexivity.
  - intros any n2 Hget Hcr. apply Hstep. unfold upload_entry. unfold_run.
    rewrite Hisfile. step_run. rewrite Hrel. step_run. rewrite Hread.
    fold path. rewrite Hget. step_run. rewrite Z.eqb_refl, Hcr. reflexivity.
  - intros entry any n2 n3 Hget Hupd Hcr. apply Hstep.
    unfold upload_entry. unfold_run.
    rewrite Hisfile. step_run. rewrite Hrel. step_run. rewrite Hread.
    fold path. rewrite Hget. step_run. rewrite Hupd. step_run.
    rewrite Z.eqb_refl. step_run. rewrite Hcr. reflexivity.
  - pose proof (emits_for_each (fun e => is_delete e = false) before
                  (upload_entry repo repo_path src)) as H.
    specialize (H (fun x => ltac:(unfold upload_entry; emits_all; reflexivity)) st).
    now rewrite Hbefore in H.
Qed.


End Claims.

(** ** The properties on the sample worlds *)

Section OnSamples.

Import Sim Samples.

Lemma home_logged_in (h : SimHub) (keys : list (result string)) :
  logged_in (world home h keys) alice.
Proof. split; [reflexivity|]. exists "tok
". split; reflexivity. Defined.

Lemma C1_witness :
  let st := world home hub [] in
  update_or_create (net st) site_repo "README.md" "hi"
    (send_file "notes.txt" "alice/site:README.md" st) /\
  (looks_local "notes.txt" ->
   fs_exists (fs st) "notes.txt" = true ->
   fs_isdir (fs st) "notes.txt" = false ->
   update_or_create (net st) site_repo "README.md" "hi"
     (copy "notes.txt" "alice/site:README.md" st)).
Proof.
  apply (C1_update_or_create_on_404 "notes.txt" "alice/site:README.md"
           (world home hub []) alice "alice/site" "README.md" "hi").
  - apply home_logged_in.
  - reflexivity.
  - discriminate.
  - reflexivity.
  - reflexivity.
  - reflexivity.
Defined.

(** C1 as stated fails: the read of [README.md] succeeds, the update is
    answered with 404 because the token may not push, and [send] goes on
    to call create. *)
Lemma C1_counterexample :
  let st := world home hub_no_push [] in
  gh_get_contents (net st) site_repo "README.md" =
    Ok (Single {| cf_name := "README.md"; cf_type := "file";
                  cf_sha := "blob readme"; cf_content := "cmVhZG1l" |}) /\
  send_file "notes.txt" "alice/site:README.md" st =
    (Raise (SystemExit 1), st,
     [Call (GetRepo alice "alice/site");
      Call (GetContents site_repo "README.md");
      Call (UpdateFile site_repo "README.md" "Update README.md" "hi"
              "blob readme");
      Call (CreateFile site_repo "README.md" "Add README.md" "hi");
      Print "gitup ERR! Unexpected error: request failed"]) /\
  existsb is_create
    (snd (send_file "notes.txt" "alice/site:README.md" st)) = true.
Proof. repeat split. Qed.

Lemma C3_witness :
  let st := world home hub [] in
  copy "alice/site:README.md" "out" st =
    (Ok tt,
     with_fs st (home ++ [("out", Dir); ("out/README.md", File "readme")])%list,
     [Call (GetRepo alice "alice/site");
      Call (GetContents site_repo "README.md");
      Makedirs "out";
      Write "out/README.md" "readme";
      Print "Downloaded README.md to out/README.md"]).
Proof.
  refine (proj1
    (C3_download_into_dst "alice/site:README.md" "out"
       (world home hub []) alice "alice/site" "README.md"
       {| cf_name := "README.md"; cf_type := "file";
          cf_sha := "blob readme"; cf_content := "cmVhZG1l" |} "readme"
       _ _ (home_logged_in hub []) _ eq_refl eq_refl eq_refl eq_refl)
    (home ++ [("out", Dir)])%list
    (home ++ [("out", Dir); ("out/README.md", File "readme")])%list
    eq_refl eq_refl).
  - discriminate.
  - discriminate.
  - intros [H | [t H]]; [apply H; vm_compute; tauto | discriminate].
Defined.

(** C3 as stated fails: asked to download [README.md] to [out.txt],
    [copy] writes [out.txt/README.md]; nothing is written to [out.txt],
    which becomes a directory. *)
Lemma C3_counterexample :
  let st := world home hub [] in
  let run := copy "alice/site:README.md" "out.txt" st in
  fst (fst run) = Ok tt /\
  snd run =
    [Call (GetRepo alice "alice/site");
     Call (GetContents site_repo "README.md");
     Makedirs "out.txt";
     Write "out.txt/README.md" "readme";
     Print "Downloaded README.md to out.txt/README.md"] /\
  (forall bytes, ~ In (Write "out.txt" bytes) (snd run)) /\
  fs_isfile (fs (snd (fst run))) "out.txt" = false /\
  fs_isdir (fs (snd (fst run))) "out.txt" = true.
Proof.
  repeat split. intros bytes H. vm_compute in H.
  repeat (destruct H as [H | H]; [discriminate H|]). exact H.
Qed.

Lemma C4_witness :
  let st := world home hub [] in
  (looks_local "proj" ->
   copy "proj" "alice/site:dest" st = copy_upload alice "proj" "alice/site:dest" st /\
   Forall (fun e => is_local_write e = false)
     (snd (copy "proj" "alice/site:dest" st))) /\
  (~ looks_local "alice/site:docs" ->
   copy "alice/site:docs" "out" st =
     copy_download alice "alice/site:docs" "out" st /\
   Forall (fun e => is_remote_write e = false)
     (snd (copy "alice/site:docs" "out" st))).
Proof.
  split.
  - refine (proj1 (C4_copy_direction "proj" "alice/site:dest"
                     (world home hub []) alice _ _ (home_logged_in hub [])));
      discriminate.
  - refine (proj2 (C4_copy_direction "alice/site:docs" "out"
                     (world home hub []) alice _ _ (home_logged_in hub [])));
      discriminate.
Defined.

Lemma C5_witness :
  let st := world fresh_home hub [] in
  main (Some (Send "notes.txt" "alice/site")) st =
    (Raise (SystemExit 1), st, auth_required).
Proof.
  destruct (C5_no_token_no_call (Send "notes.txt" "alice/site")
              (world fresh_home hub [])) as (t & Hrun & _ & Ht).
  - discriminate.
  - reflexivity.
  - cbv zeta. rewrite Hrun, Ht; [reflexivity|]. split; discriminate.
Defined.

(** C5 as stated fails: without a token file, [send] with an empty file
    argument reports the missing argument, not that authentication is
    required. *)
Lemma C5_counterexample :
  let st := world fresh_home hub [] in
  fs_exists (fs st) TOKEN_PATH = false /\
  main (Some (Send "" "alice/site")) st =
    (Raise (SystemExit 1), st,
     [Print "gitup ERR! File not specified";
      Print "Usage: gitup send <local_file> <user/repo[:path]>";
      Print "Example: gitup send myfile.txt user/myrepo:folder/file.txt"]) /\
  ~ In (Print "gitup ERR! Authentication required")
      (snd (main (Some (Send "" "alice/site")) st)).
Proof.
  repeat split. intros H. vm_compute in H.
  repeat (destruct H as [H | H]; [discriminate H|]). exact H.
Qed.

Lemma C6_witness :
  let st := world home hub [] in
  let run := copy "proj" "alice/site:dest" st in
  fst (fst run) = Ok tt /\
  (exists ts,
     snd run =
       (Call (GetRepo alice "alice/site")
        :: concat ts ++ [Print "Uploaded 2 files to alice/site"])%list /\
     Forall2
       (fun file calls =>
          exists rel content,
            path_relative_to file "proj" = Ok rel /\
            fs_read (fs st) file = Ok content /\
            uploaded site_repo
              (Py.replace backslash "/" (OsPath.join "dest" rel))
              content calls)
       ["proj/a/b.txt"; "proj/a/c/d.txt"] ts) /\
  map call_path (filter is_create (snd run)) =
    [Some "dest/a/b.txt"; Some "dest/a/c/d.txt"].
Proof.
  split; [reflexivity|]. split; [|reflexivity].
  refine (proj1
    (C6_directory_upload_paths "proj" "alice/site:dest" (world home hub [])
       alice "alice/site" "dest"
       (snd (fst (copy "proj" "alice/site:dest" (world home hub []))))
       (snd (copy "proj" "alice/site:dest" (world home hub [])))
       _ _ (home_logged_in hub []) _ eq_refl eq_refl eq_refl eq_refl _)).
  - discriminate.
  - discriminate.
  - left. vm_compute. intuition discriminate.
  - reflexivity.
Defined.

(** C6 as stated fails: the file [x\y.txt] of the source directory,
    whose relative path joined with [dest] is [dest/x\y.txt], is uploaded
    to [dest/x/y.txt]. *)
Lemma C6_counterexample :
  let st := world odd_home hub [] in
  let run := copy "proj" "alice/site:dest" st in
  fs_rglob (fs st) "proj" = ["proj/" ++ odd_name] /\
  path_relative_to ("proj/" ++ odd_name) "proj" = Ok odd_name /\
  snd run =
    [Call (GetRepo alice "alice/site");
     Call (GetContents site_repo "dest/x/y.txt");
     Call (CreateFile site_repo "dest/x/y.txt" "Add dest/x/y.txt" "X");
     Print "Uploaded 1 files to alice/site"] /\
  OsPath.join "dest" odd_name <> "dest/x/y.txt" /\
  Forall (fun e => call_path e <> Some (OsPath.join "dest" odd_name)) (snd run).
Proof.
  repeat split.
  - discriminate.
  - vm_compute. repeat constructor; discriminate.
Qed.

Lemma C7_witness :
  let st := world home hub_refusing [] in
  let run := copy "proj" "alice/site:dest" st in
  fst (fst run) = Raise (SystemExit 1) /\
  snd run =
    [Call (GetRepo alice "alice/site");
     Call (GetContents site_repo "dest/a/b.txt");
     Call (CreateFile site_repo "dest/a/b.txt" "Add dest/a/b.txt" "B");
     Call (GetContents site_repo "dest/a/c/d.txt");
     Call (UpdateFile site_repo "dest/a/c/d.txt" "Update dest/a/c/d.txt" "D"
             "blob old");
     Print "gitup ERR! Failed to upload dest/a/c/d.txt: request failed"] /\
  lookup "alice/site:dest/a/b.txt" (blobs (net (snd (fst run)))) = Some "B".
Proof.
  pose (s1 := world home
                (with_blobs hub_refusing
                   (blobs hub_refusing ++ [("alice/site:dest/a/b.txt", "B")])%list)
                []).
  destruct (C7_directory_upload_aborts "proj" "alice/site:dest"
              (world home hub_refusing []) alice "alice/site" "dest"
              ["proj/a"; "proj/a/b.txt"; "proj/a/c"] []
              "proj/a/c/d.txt" "a/c/d.txt" "D" s1
              [Call (GetContents site_repo "dest/a/b.txt");
               Call (CreateFile site_repo "dest/a/b.txt" "Add dest/a/b.txt" "B")]
              ltac:(discriminate) ltac:(discriminate)
              (home_logged_in hub_refusing [])
              ltac:(left; vm_compute; intuition discriminate)
              eq_refl eq_refl eq_refl eq_refl eq_refl eq_refl eq_refl eq_refl
              eq_refl 403%Z "request failed" ltac:(discriminate))
    as (_ & Hupdate & _).
  cbv zeta.
  rewrite (Hupdate {| cf_name := "d.txt"; cf_type := "file";
                      cf_sha := "blob old"; cf_content := "b2xk" |}
             (net s1) eq_refl eq_refl).
  repeat split.
Defined.

Lemma C8_witness :
  let st := world home hub [] in
  remove_file "alice/site:docs" st =
    (Raise (SystemExit 1), st,
     [Call (GetRepo alice "alice/site");
      Call (GetContents site_repo "docs");
      Print "gitup ERR! Cannot remove directory: docs";
      Print "You must specify a file to remove"]).
Proof.
  destruct (C8_rm_file_only "alice/site:docs" (world home hub []) alice
              (home_logged_in hub [])) as (_ & Hdir & _).
  refine (Hdir "alice/site" "docs"
            [{| cf_name := "a.md"; cf_type := "file"; cf_sha := "blob A";
                cf_content := "QQ==" |}] eq_refl _ eq_refl eq_refl).
  discriminate.
Defined.

Lemma C9_witness :
  (exists t,
     login (world fresh_home hub [Raise KeyboardInterrupt]) =
       (Raise (SystemExit 0), world fresh_home hub [], t) /\
     Forall (fun e => is_local_write e = false /\ is_call e = false) t) /\
  (exists t,
     login (world fresh_home hub [Ok "wrong"]) =
       (Raise (SystemExit 1), world fresh_home hub [], t) /\
     Forall (fun e => is_local_write e = false) t /\
     filter is_call t = [Call (GetUser {| auth_token := "wrong" |})]) /\
  login (world fresh_home hub [Ok " tok
"]) =
    (Ok tt,
     world (fresh_home ++ [("~/.gitup_token", File "tok")])%list hub [],
     (banner ++
      [Input "GitHub token: ";
       Call (GetUser alice);
       Write TOKEN_PATH "tok";
       Print "Authenticated as alice"])%list).
Proof.
  split; [|split].
  - exact (proj1 (C9_login_persists_after_verification
                    (world fresh_home hub [Raise KeyboardInterrupt]))
             [] eq_refl).
  - refine (proj1 (proj2 (C9_login_persists_after_verification
                            (world fresh_home hub [Ok "wrong"])))
              "wrong" [] (GithubException 401 "401 Bad credentials")
              eq_refl _ eq_refl eq_refl).
    discriminate.
  - refine (proj2 (proj2 (proj2 (C9_login_persists_after_verification
                                   (world fresh_home hub [Ok " tok
"]))))
              " tok
" [] "alice" (fresh_home ++ [("~/.gitup_token", File "tok")])%list
              eq_refl _ eq_refl eq_refl).
    discriminate.
Defined.

Lemma C10_witness :
  let st := world home hub [] in
  parse_repo_path "alice/site:" = Some ("alice/site", "") /\
  send_file "notes.txt" "alice/site:" st = send_file "notes.txt" "alice/site" st /\
  update_or_create (net st) site_repo "notes.txt" "hi"
    (send_file "notes.txt" "alice/site:" st) /\
  (looks_local "notes.txt" ->
   fs_exists (fs st) "notes.txt" = true ->
   fs_isdir (fs st) "notes.txt" = false ->
   copy "notes.txt" "alice/site:" st = copy "notes.txt" "alice/site" st /\
   update_or_create (net st) site_repo "notes.txt" "hi"
     (copy "notes.txt" "alice/site:" st)).
Proof.
  apply (C10_empty_path_is_base_name "notes.txt" "alice/site"
           (world home hub []) alice "hi").
  - split; [discriminate | vm_compute; tauto].
  - vm_compute. intuition discriminate.
  - apply home_logged_in.
  - discriminate.
  - reflexivity.
  - reflexivity.
  - reflexivity.
Defined.

End OnSamples.

(** * Further properties *)

(** ** The token file *)

Section TokenFile.

Context {F N : Type} {E : Env F N}.

Implicit Types st s : @state F N.

Lemma client_unreadable st e :
  fs_exists (fs st) TOKEN_PATH = true ->
  fs_read (fs st) TOKEN_PATH = Raise e ->
  is_Exception e = true ->
  get_github_client st =
    (Raise (SystemExit 1), st,
     [Print ("gitup ERR! Failed to read authentication token: " ++ exn_str e)]).
Proof.
  intros Hex Hrd He.
  unfold get_github_client. unfold_run. rewrite Hex. step_run. rewrite Hrd.
  destruct e; try discriminate; reflexivity.
Qed.

(** X1. When the token file is there but cannot be read, every command
    other than [login] (its arguments given) reports the failure and
    exits with status 1 without any call of the remote API. *)
Theorem X1_unreadable_token_exits (a : args) st e :
  a <> Login ->
  args_given a ->
  fs_exists (fs st) TOKEN_PATH = true ->
  fs_read (fs st) TOKEN_PATH = Raise e ->
  is_Exception e = true ->
  main (Some a) st =
    (Raise (SystemExit 1), st,
     [Print ("gitup ERR! Failed to read authentication token: " ++ exn_str e)]).
Proof.
  intros Ha Hargs Hex Hrd He.
  pose proof (client_unreadable st e Hex Hrd He) as Hc.
  destruct a as [| file repo | src dst | file | repo]; simpl in *.
  - congruence.
  - destruct Hargs as [Hf Hr]. apply falsy_nonempty in Hf, Hr.
    unfold send_file. rewrite Hf, when_false_bind, Hr, when_false_bind.
    now apply bind_raise.
  - destruct Hargs as [Hs Hd]. apply falsy_nonempty in Hs, Hd.
    unfold copy. rewrite Hs, when_false_bind, Hd, when_false_bind.
    now apply bind_raise.
  - apply falsy_nonempty in Hargs.
    unfold remove_file. rewrite Hargs, when_false_bind.
    now apply bind_raise.
  - unfold list_files. now apply bind_raise.
Qed.

(** [str.strip] *)

Lemma rstrip_idempotent (s : string) : Py.rstrip (Py.rstrip s) = Py.rstrip s.
Proof.
  induction s as [|c t IH]; [reflexivity|]. simpl.
  destruct (Py.rstrip t) as [|d t'] eqn:Ht.
  - destruct (Py.is_space c) eqn:Hc; simpl; [reflexivity|]. now rewrite Hc.
  - simpl in *. now rewrite IH.
Qed.

Lemma lstrip_head (s : string) :
  Py.lstrip s = "" \/
  exists c t, Py.lstrip s = String c t /\ Py.is_space c = false.
Proof.
  induction s as [|c t IH]; simpl; [now left|].
  destruct (Py.is_space c) eqn:Hc; [exact IH|]. right. now exists c, t.
Qed.

Lemma rstrip_head (c : ascii) (t : string) :
  Py.is_space c = false ->
  exists t', Py.rstrip (String c t) = String c t'.
Proof.
  intros Hc. simpl. destruct (Py.rstrip t); rewrite ?Hc; eauto.
Qed.

Lemma strip_idempotent (s : string) : Py.strip (Py.strip s) = Py.strip s.
Proof.
  unfold Py.strip.
  destruct (lstrip_head s) as [-> | (c & t & -> & Hc)]; [reflexivity|].
  destruct (rstrip_head c t Hc) as (t' & Ht). rewrite Ht.
  assert (Hl : Py.lstrip (String c t') = String c t') by (simpl; now rewrite Hc).
  rewrite Hl, <- Ht. apply rstrip_idempotent.
Qed.

Lemma strip_blank (s : string) :
  Forall (fun c => Py.is_space c = true) (chars s) -> Py.strip s = "".
Proof.
  unfold Py.strip. induction s as [|c t IH]; simpl; intros H; [reflexivity|].
  inversion H as [|? ? Hc Ht]; subst. rewrite Hc. auto.
Qed.

(** X2. A successful [login] verifies the stripped input with one call,
    writes it to the token file and greets the user; once the file holds
    what was written, [get_github_client] builds the client of the very
    token that was verified. *)
Theorem X2_login_then_client st text rest user f' :
  stdin st = Ok text :: rest ->
  Py.strip text <> "" ->
  let token := Py.strip text in
  gh_user_login (net st) {| auth_token := token |} = Ok user ->
  fs_write (fs st) TOKEN_PATH token = (Ok tt, f') ->
  let st' := with_fs (with_stdin st rest) f' in
  login st =
    (Ok tt, st',
     (banner ++
      [Input "GitHub token: ";
       Call (GetUser {| auth_token := token |});
       Write TOKEN_PATH token;
       Print ("Authenticated as " ++ user)])%list) /\
  (fs_exists f' TOKEN_PATH = true ->
   fs_read f' TOKEN_PATH = Ok token ->
   get_github_client st' = (Ok {| auth_token := token |}, st', [])).
Proof.
  intros Hin Htok token Hv Hw st'. split.
  - apply falsy_nonempty in Htok. unfold login. unfold_run.
    rewrite Hin. step_run. rewrite Htok. step_run. fold token.
    rewrite Hv. step_run. rewrite Hw. reflexivity.
  - intros Hex Hrd. apply client_present. split; [exact Hex|].
    exists token. split; [exact Hrd|]. unfold token.
    now rewrite strip_idempotent.
Qed.

(** X3. [login] refuses an input made of white space only (of the
    characters [str.strip()] removes): it exits with status 1 before any
    call and writes nothing. *)
Theorem X3_login_blank_token st text rest :
  stdin st = Ok text :: rest ->
  Forall (fun c => Py.is_space c = true) (chars text) ->
  login st =
    (Raise (SystemExit 1), with_stdin st rest,
     (banner ++
      [Input "GitHub token: "; Print "gitup ERR! Token cannot be empty"])%list).
Proof.
  intros Hin Hblank. apply strip_blank in Hblank.
  unfold login. unfold_run. rewrite Hin. step_run. rewrite Hblank.
  reflexivity.
Qed.

End TokenFile.

(** ** [send] *)

Section Send.

Context {F N : Type} {E : Env F N}.

Implicit Types st s : @state F N.

(** X4. [send] checks the repository reference, then the local file,
    before it contacts the remote: with a malformed reference, or with a
    local path that is no file, it exits with status 1 without any call,
    the reference reported first. *)
Theorem X4_send_validates_before_network (file ref : string) st g :
  logged_in st g ->
  file <> "" -> ref <> "" ->
  (parse_repo_path ref = None ->
   exists t,
     send_file file ref st =
       (Raise (SystemExit 1), st,
        Print "gitup ERR! Invalid repository format" :: t) /\
     calls t = []) /\
  (parse_repo_path ref <> None ->
   fs_isfile (fs st) file = false ->
   exists t,
     send_file file ref st =
       (Raise (SystemExit 1), st,
        Print ("gitup ERR! File not found: " ++ file) :: t) /\
     calls t = []).
Proof.
  intros Hin Hfile Href. apply falsy_nonempty in Hfile, Href.
  pose proof (client_present st g Hin) as Hc.
  split.
  - intros Hp. unfold send_file.
    rewrite Hfile, when_false_bind, Href, when_false_bind.
    rewrite (bind_ok_nil _ _ _ _ _ Hc), Hp.
    eexists. split; reflexivity.
  - intros Hp Hisfile.
    destruct (parse_repo_path ref) as [[rn rp]|] eqn:Hparse; [|congruence].
    destruct (parse_some_inv _ _ _ Hparse) as [_ Hrn].
    unfold send_file.
    rewrite Hfile, when_false_bind, Href, when_false_bind.
    rewrite (bind_ok_nil _ _ _ _ _ Hc), Hparse, Hrn, when_false_bind.
    unfold_run. rewrite Hisfile. eexists. split; reflexivity.
Qed.

(** X5. When the repository cannot be fetched, [send] exits with status
    1 after that one call: the local file is not read and nothing is
    looked up, updated or created. *)
Theorem X5_send_repository_not_found
  (file ref : string) st g repo_name repo_path status text :
  logged_in st g ->
  file <> "" ->
  parse_repo_path ref = Some (repo_name, repo_path) ->
  fs_isfile (fs st) file = true ->
  gh_get_repo (net st) g repo_name = Raise (GithubException status text) ->
  exists t,
    send_file file ref st =
      (Raise (SystemExit 1), st,
       Call (GetRepo g repo_name)
       :: Print ("gitup ERR! Repository not found: " ++ repo_name) :: t) /\
    calls t = [].
Proof.
  intros Hin Hfile Hp Hisfile Hrepo.
  destruct (parse_some_inv _ _ _ Hp) as [Href Hrn].
  apply falsy_nonempty in Hfile.
  unfold send_file.
  rewrite Hfile, when_false_bind, Href, when_false_bind.
  rewrite (bind_ok_nil _ _ _ _ _ (client_present st g Hin)), Hp.
  rewrite Hrn, when_false_bind.
  unfold_run. rewrite Hisfile. step_run. rewrite Hrepo.
  eexists. split; reflexivity.
Qed.

(** X6. When the target path is a directory of the repository (the read
    returns a listing), [send] and the single-file upload of [copy] exit
    with status 1 after the read: nothing is updated or created and the
    remote state is unchanged. *)
Theorem X6_upload_onto_directory
  (file ref : string) st g repo_name repo_path content entries :
  logged_in st g ->
  parse_repo_path ref = Some (repo_name, repo_path) ->
  file <> "" ->
  fs_isfile (fs st) file = true ->
  fs_read (fs st) file = Ok content ->
  gh_get_repo (net st) g repo_name = Ok tt ->
  let repo := {| client := g; repo_name_of := repo_name |} in
  let path := Py.or_else repo_path (OsPath.basename file) in
  gh_get_contents (net st) repo path = Ok (Listing entries) ->
  let reason := "'list' object has no attribute 'sha'" in
  send_file file ref st =
    (Raise (SystemExit 1), st,
     [Call (GetRepo g repo_name);
      Call (GetContents repo path);
      Print ("gitup ERR! Unexpected error: " ++ reason)]) /\
  (looks_local file ->
   fs_exists (fs st) file = true ->
   fs_isdir (fs st) file = false ->
   copy file ref st =
     (Raise (SystemExit 1), st,
      [Call (GetRepo g repo_name);
       Call (GetContents repo path);
       Print ("gitup ERR! Upload failed: " ++ reason)])).
Proof.
  intros Hin Hp Hfile Hisfile Hread Hrepo repo path Hget reason.
  destruct (parse_some_inv _ _ _ Hp) as [Href Hrn].
  assert (Hne : ref <> "") by now apply falsy_nonempty.
  split.
  - apply falsy_nonempty in Hfile. unfold send_file.
    rewrite Hfile, when_false_bind, Href, when_false_bind.
    rewrite (bind_ok_nil _ _ _ _ _ (client_present st g Hin)), Hp.
    rewrite Hrn, when_false_bind.
    fold path. unfold_run. rewrite Hisfile. step_run.
    rewrite Hrepo, Hread. fold repo. rewrite Hget. reflexivity.
  - intros Hlocal Hex Hdir.
    rewrite (copy_dispatch file ref st g Hfile Hne Hin).
    apply is_upload_spec in Hlocal. rewrite Hlocal.
    unfold copy_upload. rewrite Hp, Hrn, when_false_bind.
    fold path. unfold_run. rewrite Hrepo. step_run. rewrite Hex. step_run.
    rewrite Hdir, Hisfile, Hread. fold repo. rewrite Hget. reflexivity.
Qed.

End Send.

Section SendOutcome.

Context {F N : Type} {E : Env F N}.

Implicit Types st s : @state F N.

(** X7. [send] returns normally exactly when the entry is read and the
    update accepted, or the read answers 404 and the create is accepted,
    or the update answers 404 and the create that follows is accepted. *)
Theorem X7_send_succeeds_iff
  (file ref : string) st g repo_name repo_path content :
  logged_in st g ->
  parse_repo_path ref = Some (repo_name, repo_path) ->
  file <> "" ->
  fs_isfile (fs st) file = true ->
  fs_read (fs st) file = Ok content ->
  gh_get_repo (net st) g repo_name = Ok tt ->
  let repo := {| client := g; repo_name_of := repo_name |} in
  let path := Py.or_else repo_path (OsPath.basename file) in
  let read := gh_get_contents (net st) repo path in
  let update n sha :=
    gh_update_file n repo path ("Update " ++ path) content sha in
  let create n := gh_create_file n repo path ("Add " ++ path) content in
  fst (fst (send_file file ref st)) = Ok tt <->
  (exists entry n1,
     read = Ok (Single entry) /\
     update (net st) (cf_sha entry) = (Ok tt, n1)) \/
  (exists text n1,
     read = Raise (GithubException 404 text) /\
     create (net st) = (Ok tt, n1)) \/
  (exists entry text n1 n2,
     read = Ok (Single entry) /\
     update (net st) (cf_sha entry) = (Raise (GithubException 404 text), n1) /\
     create n1 = (Ok tt, n2)).
Proof.
  intros Hin Hp Hfile Hisfile Hread Hrepo repo path read update create.
  destruct (parse_some_inv _ _ _ Hp) as [Href Hrn].
  apply falsy_nonempty in Hfile.
  unfold send_file.
  rewrite Hfile, when_false_bind, Href, when_false_bind.
  rewrite (bind_ok_nil _ _ _ _ _ (client_present st g Hin)), Hp.
  rewrite Hrn, when_false_bind.
  fold path. unfold_run. rewrite Hisfile. step_run. rewrite Hrepo, Hread.
  fold repo. subst read update create. cbv beta.
  by_cases_on_env; cbn [fst snd];
    (split;
     [ intros Hok; try discriminate Hok;
       first
         [ left; do 2 eexists; split;
           [reflexivity | first [eassumption | reflexivity]]
         | right; left; do 2 eexists; split;
           [reflexivity | first [eassumption | reflexivity]]
         | right; right; do 4 eexists;
           split; [reflexivity | split; first [eassumption | reflexivity]] ]
     | intros [(e0 & m1 & Hr & Hu)
              | [(t0 & m1 & Hr & Hc)
                | (e0 & t0 & m1 & m2 & Hr & Hu & Hc)]];
       first [reflexivity | congruence] ]).
Qed.

End SendOutcome.

(** ** What the commands never do *)

Section Keeps.

Context {F N : Type} {E : Env F N}.

Context {X : Type} (part : @state F N -> X).

Lemma keeps_ret {A} (a : A) : keeps part (@ret F N A a).
Proof. intros s. reflexivity. Qed.

Lemma keeps_raise {A} e : keeps part (@raise F N A e).
Proof. intros s. reflexivity. Qed.

Lemma keeps_emit e : keeps part (@emit F N e).
Proof. intros s. reflexivity. Qed.

Lemma keeps_bind {A B} (m : @M F N A) (k : A -> @M F N B) :
  keeps part m -> (forall a, keeps part (k a)) -> keeps part (bind m k).
Proof.
  intros Hm Hk s. specialize (Hm s). unfold bind.
  destruct (m s) as [[[a|e] s1] t1]; simpl in *; [|exact Hm].
  specialize (Hk a s1). destruct (k a s1) as [[r s2] t2]; simpl in *.
  congruence.
Qed.

Lemma keeps_try {A} (m : @M F N A) (h : exn -> @M F N A) :
  keeps part m -> (forall e, keeps part (h e)) -> keeps part (try_ m h).
Proof.
  intros Hm Hh s. specialize (Hm s). unfold try_.
  destruct (m s) as [[[a|e] s1] t1]; simpl in *; [exact Hm|].
  specialize (Hh e s1). destruct (h e s1) as [[r s2] t2]; simpl in *.
  congruence.
Qed.

Lemma keeps_when b (m : @M F N unit) : keeps part m -> keeps part (when b m).
Proof. destruct b; simpl; [auto | intros _; apply keeps_ret]. Qed.

Lemma keeps_for_each {A} (l : list A) (body : A -> @M F N unit) :
  (forall x, keeps part (body x)) -> keeps part (for_each l body).
Proof.
  intros Hb. induction l as [|x l IH]; simpl.
  - apply keeps_ret.
  - apply keeps_bind; auto.
Qed.

End Keeps.

(** Decomposes a goal [keeps part m] along the structure of [m]; a
    primitive computation is run on an arbitrary state. *)
Ltac keeps_prim :=
  let s := fresh "s" in
  intros s;
  cbv beta iota delta
    [input os_path_exists os_path_isfile path_is_dir path_rglob relative_to
     open_read open_write os_makedirs base64_b64decode user_login get_repos
     get_repo get_contents entry_content update_file create_file delete_file
     count_files];
  repeat match goal with
         | |- context [match ?x with _ => _ end] => destruct x
         end;
  reflexivity.

Ltac keeps_step :=
  lazymatch goal with
  | |- keeps _ (bind _ _) => apply keeps_bind; [| intros ?]
  | |- keeps _ (try_ _ _) => apply keeps_try; [| intros ?]
  | |- keeps _ (when _ _) => apply keeps_when
  | |- keeps _ (for_each _ _) => apply keeps_for_each; intros ?
  | |- keeps _ (ret _) => apply keeps_ret
  | |- keeps _ (raise _) => apply keeps_raise
  | |- keeps _ (sys_exit _) => apply keeps_raise
  | |- keeps _ (print _) => apply keeps_emit
  | |- keeps _ (error _) => apply keeps_emit
  | |- keeps _ (success _) => apply keeps_emit
  | |- keeps _ (info _) => apply keeps_emit
  | |- keeps _ (contents_sha ?c) =>
      destruct c; [apply keeps_ret | apply keeps_raise]
  | |- keeps _ (match ?x with _ => _ end) => destruct x
  | |- keeps _ _ => keeps_prim
  end.

Ltac keeps_all := repeat keeps_step.

Section Effects.

Context {F N : Type} {E : Env F N}.

Implicit Types st s : @state F N.

(** X8. Only [rm] ever calls the remote delete operation. *)
Theorem X8_only_rm_deletes (a : option args) st :
  (forall file, a <> Some (Rm file)) ->
  Forall (fun e => is_delete e = false) (snd (main a st)).
Proof.
  intros Ha.
  assert (H : emits (fun e => is_delete e = false) (main a)).
  { destruct a as [[| file repo | src dst | file | repo]|]; simpl.
    - unfold login. emits_all; reflexivity.
    - unfold send_file, get_github_client. emits_all; reflexivity.
    - unfold copy, copy_upload, copy_download, upload_entry,
        get_github_client. emits_all; reflexivity.
    - exfalso. now apply (Ha file).
    - unfold list_files, get_github_client. emits_all; reflexivity.
    - emits_all; reflexivity. }
  apply H.
Qed.

(** X9. [ls] only reads: it leaves the local file system, the remote
    state and standard input as they were, and issues no call that
    writes to the repository. *)
Theorem X9_ls_is_read_only (repo : string) st :
  snd (fst (list_files repo st)) = st /\
  Forall (fun e => is_remote_write e = false /\ is_local_write e = false)
    (snd (list_files repo st)).
Proof.
  split.
  - assert (H : keeps (fun s => s) (list_files repo)).
    { unfold list_files, get_github_client. keeps_all. }
    apply H.
  - assert (H : emits (fun e => is_remote_write e = false /\
                                is_local_write e = false)
                  (list_files repo)).
    { unfold list_files, get_github_client. emits_all; split; reflexivity. }
    apply H.
Qed.

(** X10. [send] and [rm] never write to the local file system: neither
    a file nor a directory is written, and the file system and standard
    input are left as they were. *)
Theorem X10_send_and_rm_keep_local_files (file ref : string) st :
  (fs (snd (fst (send_file file ref st))) = fs st /\
   stdin (snd (fst (send_file file ref st))) = stdin st /\
   Forall (fun e => is_local_write e = false) (snd (send_file file ref st))) /\
  (fs (snd (fst (remove_file ref st))) = fs st /\
   stdin (snd (fst (remove_file ref st))) = stdin st /\
   Forall (fun e => is_local_write e = false) (snd (remove_file ref st))).
Proof.
  split; (split; [|split]).
  - assert (H : keeps fs (send_file file ref)).
    { unfold send_file, get_github_client. keeps_all. }
    apply H.
  - assert (H : keeps stdin (send_file file ref)).
    { unfold send_file, get_github_client. keeps_all. }
    apply H.
  - assert (H : emits (fun e => is_local_write e = false) (send_file file ref)).
    { unfold send_file, get_github_client. emits_all; reflexivity. }
    apply H.
  - assert (H : keeps fs (remove_file ref)).
    { unfold remove_file, get_github_client. keeps_all. }
    apply H.
  - assert (H : keeps stdin (remove_file ref)).
    { unfold remove_file, get_github_client. keeps_all. }
    apply H.
  - assert (H : emits (fun e => is_local_write e = false) (remove_file ref)).
    { unfold remove_file, get_github_client. emits_all; reflexivity. }
    apply H.
Qed.

(** X11. [login] leaves the remote state as it was; the only call it
    ever issues is the request for the user behind the token, and the
    only file it ever writes is the token file. *)
Theorem X11_login_effects st :
  net (snd (fst (login st))) = net st /\
  Forall
    (fun e =>
       match e with
       | Call c => exists g, c = GetUser g
       | Write path _ => path = TOKEN_PATH
       | Makedirs _ => False
       | _ => True
       end)
    (snd (login st)).
Proof.
  split.
  - assert (H : keeps net login) by (unfold login; keeps_all).
    apply H.
  - assert (H : emits
                  (fun e =>
                     match e with
                     | Call c => exists g, c = GetUser g
                     | Write path _ => path = TOKEN_PATH
                     | Makedirs _ => False
                     | _ => True
                     end) login).
    { unfold login. emits_all; try exact I; try reflexivity. eexists.
      reflexivity. }
    apply H.
Qed.

End Effects.

(** ** [copy] *)

Section PathFacts.

Lemma rsplit_no_slash (b : string) :
  ~ In "/"%char (chars b) -> OsPath.rsplit_slash b = (None, b).
Proof.
  induction b as [|c b IH]; simpl; intros H; [reflexivity|].
  rewrite IH by tauto.
  destruct (Ascii.eqb c "/") eqn:Hc; [|reflexivity].
  apply Ascii.eqb_eq in Hc. tauto.
Qed.

Lemma rsplit_app (a b : string) :
  ~ In "/"%char (chars b) ->
  OsPath.rsplit_slash (a ++ String "/" b) = (Some a, b).
Proof.
  intros H. induction a as [|c a IH]; simpl.
  - now rewrite (rsplit_no_slash b H).
  - now rewrite IH.
Qed.

Lemma endswith_app (c : ascii) (a : string) :
  Py.endswith c a = true -> exists a', a = a' ++ String c "".
Proof.
  induction a as [|d a IH]; simpl; [discriminate|].
  destruct a as [|e a].
  - intros H. apply Ascii.eqb_eq in H. subst d. now exists "".
  - intros H. destruct (IH H) as (a' & Ha). exists (String d a').
    simpl. now rewrite <- Ha.
Qed.

Lemma append_assoc (a b c : string) : (a ++ b) ++ c = a ++ (b ++ c).
Proof. induction a as [|d a IH]; simpl; [reflexivity | now rewrite IH]. Qed.

Lemma basename_join (dst name : string) :
  ~ In "/"%char (chars name) ->
  OsPath.basename (OsPath.join dst name) = name.
Proof.
  intros H. unfold OsPath.join, OsPath.basename.
  assert (Hs : Py.startswith "/" name = false).
  { destruct name as [|c name]; simpl; [reflexivity|].
    apply Ascii.eqb_neq. intros ->. apply H. simpl. auto. }
  rewrite Hs.
  destruct (Py.falsy dst) eqn:Hd; simpl.
  - apply falsy_empty in Hd. subst dst. simpl.
    now rewrite (rsplit_no_slash name H).
  - destruct (Py.endswith "/" dst) eqn:He.
    + destruct (endswith_app _ _ He) as (a & ->).
      rewrite append_assoc. simpl. now rewrite (rsplit_app a name H).
    + now rewrite (rsplit_app dst name H).
Qed.

Lemma replace_removes (a b : ascii) (s : string) :
  a <> b -> ~ In a (chars (Py.replace a b s)).
Proof.
  intros Hab. induction s as [|c s IH]; simpl; [tauto|].
  intros [H | H]; [|tauto].
  destruct (Ascii.eqb c a) eqn:Hc.
  - congruence.
  - apply Ascii.eqb_neq in Hc. congruence.
Qed.

(** X12. The remote path of a file of a directory upload never holds a
    backslash; it is the destination joined with the relative path
    whenever that holds none. *)
Theorem X12_dest_path_has_no_backslash (repo_path rel_path : string) :
  ~ In backslash (chars (dest_path_of repo_path rel_path)) /\
  (dest_path_of repo_path rel_path = OsPath.join repo_path rel_path <->
   ~ In backslash (chars (OsPath.join repo_path rel_path))).
Proof.
  split.
  - apply replace_removes. discriminate.
  - split.
    + intros <-. apply replace_removes. discriminate.
    + apply replace_absent.
Qed.

End PathFacts.

Section Copy.

Context {F N : Type} {E : Env F N}.

Implicit Types st s : @state F N.

(** X13. In the upload direction [copy] fetches the repository before
    it looks at the source; a source that does not exist, or that is
    neither a directory nor a regular file, then makes it exit with
    status 1 with no further call. *)
Theorem X13_copy_upload_bad_source
  (src dst : string) st g repo_name repo_path :
  src <> "" -> dst <> "" ->
  logged_in st g ->
  looks_local src ->
  parse_repo_path dst = Some (repo_name, repo_path) ->
  gh_get_repo (net st) g repo_name = Ok tt ->
  (fs_exists (fs st) src = false ->
   copy src dst st =
     (Raise (SystemExit 1), st,
      [Call (GetRepo g repo_name);
       Print ("gitup ERR! Source not found: " ++ src);
       Print "Please verify the file or folder path"])) /\
  (fs_exists (fs st) src = true ->
   fs_isdir (fs st) src = false ->
   fs_isfile (fs st) src = false ->
   copy src dst st =
     (Raise (SystemExit 1), st,
      [Call (GetRepo g repo_name);
       Print ("gitup ERR! Invalid source: " ++ src)])).
Proof.
  intros Hsrc Hdst Hin Hlocal Hp Hrepo.
  destruct (parse_some_inv _ _ _ Hp) as [_ Hrn].
  rewrite (copy_dispatch src dst st g Hsrc Hdst Hin).
  apply is_upload_spec in Hlocal. rewrite Hlocal.
  unfold copy_upload. rewrite Hp, Hrn, when_false_bind.
  unfold_run. rewrite Hrepo. step_run. split.
  - intros Hex. rewrite Hex. reflexivity.
  - intros Hex Hdir Hfile. rewrite Hex. step_run. rewrite Hdir, Hfile.
    reflexivity.
Qed.

(** The loop that downloads the files of a listing. *)
Lemma download_loop_ok (repo : Repository) (dst : string)
  (entries : list ContentFile) s s' t :
  for_each entries
    (fun content =>
       when (String.eqb (cf_type content) "file")
         (bind (entry_content repo content)
            (fun text =>
               bind (base64_b64decode text)
                 (fun file_content =>
                    open_write (OsPath.join dst (cf_name content))
                      file_content))))
    s = (Ok tt, s', t) ->
  net s' = net s /\
  exists steps, t = concat steps /\ downloaded (net s) repo dst entries steps.
Proof.
  unfold downloaded.
  revert s t. induction entries as [|c entries IH]; intros s t; simpl.
  - intros H. injection H as <- <-. split; [reflexivity|].
    exists []. split; constructor.
  - unfold bind at 1. unfold is_file_entry at 1.
    destruct (String.eqb (cf_type c) "file"); simpl when.
    + unfold bind at 1, entry_content.
      destruct (gh_entry_content (net s) repo c) as [text|e] eqn:Hfetch;
        [|discriminate].
      unfold bind at 1, base64_b64decode, open_write.
      destruct (b64decode text) as [data|e] eqn:Hdec; [|discriminate].
      destruct (fs_write (fs s) (OsPath.join dst (cf_name c)) data)
        as [[[]|e] f1] eqn:Hw; [|discriminate].
      destruct (for_each entries _ (with_fs s f1)) as [[r s2] t2] eqn:Hrest.
      intros H. injection H as -> -> <-.
      destruct (IH _ _ Hrest) as [Hnet (steps & -> & Hall)].
      split; [exact Hnet|].
      exists ([Call (GetEntry repo c);
               Write (OsPath.join dst (cf_name c)) data] :: steps).
      split; [reflexivity|]. constructor; [|exact Hall].
      now exists text, data.
    + unfold ret at 1.
      destruct (for_each entries _ s) as [[r s2] t2] eqn:Hrest.
      intros H. injection H as -> -> <-.
      destruct (IH _ _ Hrest) as [Hnet Hall]. split; assumption.
Qed.

Lemma downloaded_calls n repo dst entries steps :
  downloaded n repo dst entries steps ->
  calls (concat steps) =
    map (fun entry => Call (GetEntry repo entry))
      (filter is_file_entry entries).
Proof.
  unfold downloaded. intros H.
  induction H as [|c e l l' (text & data & _ & _ & ->) _ IH];
    [reflexivity|].
  cbn [concat map]. unfold calls in *. cbn [app filter is_call].
  now rewrite IH.
Qed.

(** X14. When [copy] downloads a path that resolves to a listing and
    completes, it has made [dst] a directory and, for each entry of type
    ['file'] in order, fetched the content of the entry and written what
    it decodes to [dst] joined with the entry's name; other entries are
    skipped and no further listing is read (one level only): its calls
    are the fetch of the repository, the one read of the path and one
    fetch per file entry; the count it reports is that of all entries;
    the remote state is unchanged. *)
Theorem X14_download_listing
  (src dst : string) st g repo_name repo_path entries s' t :
  src <> "" -> dst <> "" ->
  logged_in st g ->
  ~ looks_local src ->
  parse_repo_path src = Some (repo_name, repo_path) ->
  let repo := {| client := g; repo_name_of := repo_name |} in
  gh_get_repo (net st) g repo_name = Ok tt ->
  gh_get_contents (net st) repo repo_path = Ok (Listing entries) ->
  copy src dst st = (Ok tt, s', t) ->
  net s' = net st /\
  calls t =
    Call (GetRepo g repo_name)
    :: Call (GetContents repo repo_path)
    :: map (fun entry => Call (GetEntry repo entry))
         (filter is_file_entry entries) /\
  exists steps,
    downloaded (net st) repo dst entries steps /\
    t = ([Call (GetRepo g repo_name);
          Call (GetContents repo repo_path);
          Makedirs dst]
         ++ concat steps
         ++ [Print ("Downloaded " ++ str_nat (length entries)
                    ++ " files to " ++ dst)])%list.
Proof.
  intros Hsrc Hdst Hin Hremote Hp repo Hrepo Hget.
  destruct (parse_some_inv _ _ _ Hp) as [_ Hrn].
  rewrite (copy_dispatch src dst st g Hsrc Hdst Hin).
  destruct (is_upload src) eqn:Hu.
  { exfalso. apply Hremote, is_upload_spec, Hu. }
  unfold copy_download. rewrite Hp, Hrn, when_false_bind.
  unfold try_ at 1, bind at 1, get_repo. rewrite Hrepo. fold repo.
  unfold try_ at 1, bind at 1, get_contents. rewrite Hget.
  unfold bind at 1, os_makedirs.
  destruct (fs_makedirs (fs st) dst) as [[[]|e] f1].
  2:{ destruct e; cbn; discriminate. }
  unfold bind at 1.
  match goal with
  | |- context [for_each entries ?b ?s] =>
      destruct (for_each entries b s) as [[[[]|e] s2] t2] eqn:Hloop
  end.
  2:{ destruct e; cbn; discriminate. }
  cbn. intros H. injection H as <- <-.
  destruct (download_loop_ok repo dst entries _ _ _ Hloop)
    as [Hnet (steps & -> & Hall)].
  cbn [net with_fs] in Hnet, Hall.
  split; [exact Hnet|]. split.
  - pose proof (downloaded_calls _ _ _ _ _ Hall) as Hc.
    unfold calls in *. cbn [filter is_call]. rewrite filter_app, Hc.
    cbn [filter is_call]. now rewrite app_nil_r.
  - exists steps. split; [exact Hall | reflexivity].
Qed.

(** What the download of a single file can write. *)
Lemma download_single_writes
  (src dst : string) st g repo_name repo_path entry :
  src <> "" -> dst <> "" ->
  logged_in st g ->
  ~ looks_local src ->
  parse_repo_path src = Some (repo_name, repo_path) ->
  gh_get_repo (net st) g repo_name = Ok tt ->
  gh_get_contents (net st) {| client := g; repo_name_of := repo_name |}
    repo_path = Ok (Single entry) ->
  forall path bytes,
    In (Write path bytes) (snd (copy src dst st)) ->
    path = OsPath.join dst (cf_name entry) /\
    b64decode (cf_content entry) = Ok bytes.
Proof.
  intros Hsrc Hdst Hin Hremote Hp Hrepo Hget path bytes.
  destruct (parse_some_inv _ _ _ Hp) as [_ Hrn].
  rewrite (copy_dispatch src dst st g Hsrc Hdst Hin).
  destruct (is_upload src) eqn:Hu.
  { exfalso. apply Hremote, is_upload_spec, Hu. }
  unfold copy_download. rewrite Hp, Hrn, when_false_bind.
  unfold_run. rewrite Hrepo. step_run. rewrite Hget. step_run.
  destruct (b64decode (cf_content entry)) as [data|e]; step_run.
  2:{ destruct e; step_run; cbn [In]; intros H;
        repeat match type of H with _ \/ _ => destruct H as [H|H] end;
        try discriminate H; contradiction. }
  destruct (fs_makedirs (fs st) _) as [[[]|e] f1]; step_run.
  2:{ destruct e; step_run; cbn [In]; intros H;
        repeat match type of H with _ \/ _ => destruct H as [H|H] end;
        try discriminate H; contradiction. }
  destruct (fs_write f1 _ data) as [[[]|e] f2]; step_run;
    [|destruct e; step_run]; cbn [In]; intros H;
    repeat match type of H with _ \/ _ => destruct H as [H|H] end;
    try discriminate H; try contradiction;
    injection H as <- <-; auto.
Qed.

(** X15. A single file that [copy] downloads keeps the name of the
    remote entry: whatever [dst] is, the base name of the path written is
    the entry's name (a name holds no ['/']), and what is written is the
    decoded content. *)
Theorem X15_downloaded_file_keeps_name
  (src dst : string) st g repo_name repo_path entry :
  src <> "" -> dst <> "" ->
  logged_in st g ->
  ~ looks_local src ->
  parse_repo_path src = Some (repo_name, repo_path) ->
  gh_get_repo (net st) g repo_name = Ok tt ->
  gh_get_contents (net st) {| client := g; repo_name_of := repo_name |}
    repo_path = Ok (Single entry) ->
  ~ In "/"%char (chars (cf_name entry)) ->
  forall path bytes,
    In (Write path bytes) (snd (copy src dst st)) ->
    OsPath.basename path = cf_name entry /\
    b64decode (cf_content entry) = Ok bytes.
Proof.
  intros Hsrc Hdst Hin Hremote Hp Hrepo Hget Hname path bytes Hw.
  destruct (download_single_writes src dst st g repo_name repo_path entry
              Hsrc Hdst Hin Hremote Hp Hrepo Hget path bytes Hw) as [-> Hd].
  split; [now apply basename_join | exact Hd].
Qed.

(** X16. A failure of the local side of a download (the decoding, the
    making of the directory, the writing of the file) is not turned into
    an exit with status 1: the exception leaves [copy] as it is, and no
    error line is printed. *)
Theorem X16_download_local_failure_propagates
  (src dst : string) st g repo_name repo_path entry text :
  src <> "" -> dst <> "" ->
  logged_in st g ->
  ~ looks_local src ->
  parse_repo_path src = Some (repo_name, repo_path) ->
  let repo := {| client := g; repo_name_of := repo_name |} in
  gh_get_repo (net st) g repo_name = Ok tt ->
  gh_get_contents (net st) repo repo_path = Ok (Single entry) ->
  let local_path := OsPath.join dst (cf_name entry) in
  let started :=
    [Call (GetRepo g repo_name); Call (GetContents repo repo_path)] in
  (b64decode (cf_content entry) = Raise (OtherException text) ->
   copy src dst st = (Raise (OtherException text), st, started)) /\
  (forall data f1,
     b64decode (cf_content entry) = Ok data ->
     fs_makedirs (fs st) (OsPath.dirname local_path)
       = (Raise (OtherException text), f1) ->
     copy src dst st =
       (Raise (OtherException text), with_fs st f1,
        started ++ [Makedirs (OsPath.dirname local_path)])%list) /\
  (forall data f1 f2,
     b64decode (cf_content entry) = Ok data ->
     fs_makedirs (fs st) (OsPath.dirname local_path) = (Ok tt, f1) ->
     fs_write f1 local_path data = (Raise (OtherException text), f2) ->
     copy src dst st =
       (Raise (OtherException text), with_fs st f2,
        started
        ++ [Makedirs (OsPath.dirname local_path); Write local_path data])%list).
Proof.
  intros Hsrc Hdst Hin Hremote Hp repo Hrepo Hget local_path started.
  destruct (parse_some_inv _ _ _ Hp) as [_ Hrn].
  rewrite (copy_dispatch src dst st g Hsrc Hdst Hin).
  destruct (is_upload src) eqn:Hu.
  { exfalso. apply Hremote, is_upload_spec, Hu. }
  unfold copy_download. rewrite Hp, Hrn, when_false_bind.
  unfold_run. rewrite Hrepo. step_run. fold repo. rewrite Hget. step_run.
  fold local_path. split; [|split].
  - intros Hdec. rewrite Hdec. reflexivity.
  - intros data f1 Hdec Hmk. rewrite Hdec. step_run. rewrite Hmk.
    reflexivity.
  - intros data f1 f2 Hdec Hmk Hwr. rewrite Hdec. step_run. rewrite Hmk.
    step_run. rewrite Hwr. reflexivity.
Qed.

End Copy.

(** ** [rm] and [ls] *)

Section RmLs.

Context {F N : Type} {E : Env F N}.

Implicit Types st s : @state F N.

(** X17. [rm] reports a [GithubException] from any of its three
    requests and exits with status 1: as 'File not found' when the
    status is 404, as 'Remove failed' otherwise; after a failed fetch or
    read no delete is called. *)
Theorem X17_rm_reports_remote_errors
  (file : string) st g repo_name repo_path status text :
  logged_in st g ->
  parse_repo_path file = Some (repo_name, repo_path) ->
  repo_path <> "" ->
  let repo := {| client := g; repo_name_of := repo_name |} in
  (gh_get_repo (net st) g repo_name = Raise (GithubException status text) ->
   remove_file file st =
     (Raise (SystemExit 1), st,
      Call (GetRepo g repo_name) :: rm_report status text repo_path)) /\
  (gh_get_repo (net st) g repo_name = Ok tt ->
   gh_get_contents (net st) repo repo_path
     = Raise (GithubException status text) ->
   remove_file file st =
     (Raise (SystemExit 1), st,
      Call (GetRepo g repo_name)
      :: Call (GetContents repo repo_path)
      :: rm_report status text repo_path)) /\
  (forall entry n',
     gh_get_repo (net st) g repo_name = Ok tt ->
     gh_get_contents (net st) repo repo_path = Ok (Single entry) ->
     gh_delete_file (net st) repo repo_path ("Remove " ++ repo_path)
       (cf_sha entry) = (Raise (GithubException status text), n') ->
     remove_file file st =
       (Raise (SystemExit 1), with_net st n',
        Call (GetRepo g repo_name)
        :: Call (GetContents repo repo_path)
        :: Call (DeleteFile repo repo_path ("Remove " ++ repo_path)
                   (cf_sha entry))
        :: rm_report status text repo_path)).
Proof.
  intros Hin Hp Hrp repo.
  destruct (parse_some_inv _ _ _ Hp) as [Hf Hrn].
  apply falsy_nonempty in Hrp.
  unfold remove_file. rewrite Hf, when_false_bind.
  rewrite (bind_ok_nil _ _ _ _ _ (client_present st g Hin)), Hp.
  rewrite Hrn, when_false_bind, Hrp, when_false_bind.
  unfold_run. fold repo. unfold rm_report. split; [|split].
  - intros Hrepo. rewrite Hrepo. step_run.
    destruct (status =? 404)%Z; reflexivity.
  - intros Hrepo Hget. rewrite Hrepo. step_run. rewrite Hget. step_run.
    destruct (status =? 404)%Z; reflexivity.
  - intros entry n' Hrepo Hget Hdel. rewrite Hrepo. step_run.
    rewrite Hget. step_run. rewrite Hdel. step_run.
    destruct (status =? 404)%Z; reflexivity.
Qed.

Lemma for_each_print {A} (f : A -> string) (body : A -> @M F N unit)
  (l : list A) s :
  (forall x s1, body x s1 = (Ok tt, s1, [Print (f x)])) ->
  for_each l body s = (Ok tt, s, map (fun x => Print (f x)) l).
Proof.
  intros Hb. induction l as [|x l IH]; cbn [for_each map]; [reflexivity|].
  unfold bind. now rewrite Hb, IH.
Qed.

(** X18. Without an argument, or with [":."], [ls] lists the
    repositories of the user: with none it says so and returns normally
    after one call; otherwise it prints a heading with the login and one
    line per repository, in order, with its visibility; a failure of the
    listing makes it exit with status 1. *)
Theorem X18_ls_repositories (repo : string) st g :
  logged_in st g ->
  repo = "" \/ repo = ":." ->
  (gh_get_repos (net st) g = Ok [] ->
   list_files repo st =
     (Ok tt, st, [Call (GetRepos g); Print "No repositories found"])) /\
  (forall r rs user,
     gh_get_repos (net st) g = Ok (r :: rs) ->
     gh_user_login (net st) g = Ok user ->
     list_files repo st =
       (Ok tt, st,
        Call (GetRepos g)
        :: Call (GetUser g)
        :: Print ("Repositories for " ++ user ++ ":")
        :: map (fun r => Print (repo_line r)) (r :: rs))) /\
  (forall status text,
     gh_get_repos (net st) g = Raise (GithubException status text) ->
     list_files repo st =
       (Raise (SystemExit 1), st,
        [Call (GetRepos g);
         Print ("gitup ERR! Failed to fetch repositories: " ++ text)])).
Proof.
  intros Hin Hrepo.
  assert (Hrun : forall k1 k2 : @M F N unit,
            (if String.eqb (if Py.falsy repo then ":." else repo) ":."
             then k1 else k2) = k1).
  { intros k1 k2. destruct Hrepo as [-> | ->]; reflexivity. }
  unfold list_files.
  rewrite (bind_ok_nil _ _ _ _ _ (client_present st g Hin)), Hrun.
  split; [|split].
  - intros Hget. unfold_run. rewrite Hget. reflexivity.
  - intros r rs user Hget Huser.
    unfold try_, bind at 1, get_repos. rewrite Hget.
    unfold bind at 1, user_login. rewrite Huser.
    unfold bind at 1, print at 1, emit at 1.
    rewrite (for_each_print repo_line) by reflexivity. reflexivity.
  - intros status text Hget. unfold_run. rewrite Hget. reflexivity.
Qed.

(** X19. With a repository reference [ls] fetches the repository and
    reads the path once; it prints a heading, in which the root shows as
    ["/"], and one line per entry of a listing, in order, or the one line
    of a file; it changes nothing. *)
Theorem X19_ls_contents (ref : string) st g repo_name repo_path :
  logged_in st g ->
  parse_repo_path ref = Some (repo_name, repo_path) ->
  let repo := {| client := g; repo_name_of := repo_name |} in
  gh_get_repo (net st) g repo_name = Ok tt ->
  let heading :=
    Print ("Contents of " ++ repo_name ++ ":"
           ++ Py.or_else repo_path "/" ++ ":") in
  (forall entries,
     gh_get_contents (net st) repo repo_path = Ok (Listing entries) ->
     list_files ref st =
       (Ok tt, st,
        Call (GetRepo g repo_name)
        :: Call (GetContents repo repo_path)
        :: heading
        :: map (fun c => Print (entry_line c)) entries)) /\
  (forall entry,
     gh_get_contents (net st) repo repo_path = Ok (Single entry) ->
     list_files ref st =
       (Ok tt, st,
        [Call (GetRepo g repo_name);
         Call (GetContents repo repo_path);
         heading;
         Print (entry_line entry)])).
Proof.
  intros Hin Hp repo Hrepo heading.
  destruct (parse_some_inv _ _ _ Hp) as [Href Hrn].
  assert (Hne : String.eqb ref ":." = false).
  { destruct (String.eqb_spec ref ":.") as [-> |]; [discriminate Hp|].
    reflexivity. }
  unfold list_files.
  rewrite (bind_ok_nil _ _ _ _ _ (client_present st g Hin)).
  rewrite Href, Hne, Hp, Hrn, when_false_bind.
  split.
  - intros entries Hget.
    unfold try_, bind at 1, get_repo. rewrite Hrepo.
    unfold bind at 1, get_contents. fold repo. rewrite Hget.
    unfold bind at 1, print at 1, emit at 1.
    rewrite (for_each_print entry_line) by reflexivity. reflexivity.
  - intros entry Hget. unfold_run. rewrite Hrepo. step_run. fold repo.
    rewrite Hget. reflexivity.
Qed.

(** X20. [ls] with a malformed reference exits with status 1 without
    any call; a [GithubException] from the fetch of the repository or
    from the read of the path makes it exit with status 1, reported as
    'not found' when the status is 404. *)
Theorem X20_ls_errors (ref : string) st g :
  logged_in st g ->
  ref <> "" -> ref <> ":." ->
  (parse_repo_path ref = None ->
   exists t,
     list_files ref st =
       (Raise (SystemExit 1), st,
        Print "gitup ERR! Invalid repository format" :: t) /\
     calls t = []) /\
  (forall repo_name repo_path status text,
     parse_repo_path ref = Some (repo_name, repo_path) ->
     let repo := {| client := g; repo_name_of := repo_name |} in
     (gh_get_repo (net st) g repo_name = Raise (GithubException status text) ->
      list_files ref st =
        (Raise (SystemExit 1), st,
         Call (GetRepo g repo_name)
         :: ls_report status text repo_name repo_path)) /\
     (gh_get_repo (net st) g repo_name = Ok tt ->
      gh_get_contents (net st) repo repo_path
        = Raise (GithubException status text) ->
      list_files ref st =
        (Raise (SystemExit 1), st,
         Call (GetRepo g repo_name)
         :: Call (GetContents repo repo_path)
         :: ls_report status text repo_name repo_path))).
Proof.
  intros Hin Href Hne. apply falsy_nonempty in Href.
  apply String.eqb_neq in Hne.
  unfold list_files.
  rewrite (bind_ok_nil _ _ _ _ _ (client_present st g Hin)).
  rewrite Href, Hne. split.
  - intros Hp. rewrite Hp. eexists. split; reflexivity.
  - intros rn rp status text Hp. rewrite Hp.
    destruct (parse_some_inv _ _ _ Hp) as [_ Hrn].
    rewrite Hrn, when_false_bind. unfold_run. unfold ls_report.
    split.
    + intros Hrepo. rewrite Hrepo. step_run.
      destruct (status =? 404)%Z; reflexivity.
    + intros Hrepo Hget. rewrite Hrepo. step_run. rewrite Hget. step_run.
      destruct (status =? 404)%Z; reflexivity.
Qed.

End RmLs.

(** ** The path parser, both ways *)

(** X21. Joining a valid repository identifier that holds no colon and
    any in-repo path, which may itself hold colons, with [':'] and
    parsing the result gives the two back; and whatever parses comes
    apart in this way. *)
Theorem X21_parse_round_trip :
  (forall l r,
     valid_repo_name l -> ~ In ":"%char (chars l) ->
     parse_repo_path (l ++ String ":" r) = Some (l, r)) /\
  (forall s l r,
     parse_repo_path s = Some (l, r) ->
     valid_repo_name l /\ ~ In ":"%char (chars l) /\
     (s = l ++ String ":" r \/ (s = l /\ r = ""))).
Proof.
  split.
  - intros l r [Hl Hs] Hc. unfold parse_repo_path.
    rewrite (split1_app ":" l r Hc). simpl.
    apply falsy_nonempty in Hl. apply contains_In in Hs.
    rewrite Hl, Hs.
    destruct l; [discriminate | reflexivity].
  - intros s l r Hp.
    destruct (first_colon_split_total s) as (l0 & r0 & [Hc Hs] & Hl & Hr).
    unfold parse_repo_path in Hp. rewrite Hl, Hr in Hp.
    destruct (Py.falsy s); [discriminate|].
    destruct (Py.falsy l0) eqn:Hfl; simpl in Hp; [discriminate|].
    destruct (Py.contains "/" l0) eqn:Hsl; simpl in Hp; [|discriminate].
    injection Hp as <- <-. repeat split.
    + now apply falsy_nonempty.
    + now apply contains_In.
    + exact Hc.
    + exact Hs.
Qed.

(** ** The further properties on the sample worlds *)

Section MoreOnSamples.

Import Sim Samples MoreSamples.

Lemma plain_home_logged_in (f : SimFS) (h : SimHub) (keys : list (result string)) :
  lookup TOKEN_PATH f = Some (File "tok") ->
  logged_in (world f h keys) alice.
Proof.
  intros H. split.
  - cbn. unfold sim_exists. now rewrite H.
  - exists "tok". split; [|reflexivity]. cbn. unfold sim_read. now rewrite H.
Defined.

Lemma X1_witness :
  main (Some (Ls "")) (world locked_home hub []) =
    (Raise (SystemExit 1), world locked_home hub [],
     [Print ("gitup ERR! Failed to read authentication token: "
             ++ "[Errno 21] Is a directory: ~/.gitup_token")]).
Proof.
  refine (X1_unreadable_token_exits (Ls "") (world locked_home hub [])
            (OtherException "[Errno 21] Is a directory: ~/.gitup_token")
            _ I eq_refl eq_refl eq_refl).
  discriminate.
Defined.

Lemma X2_witness :
  let st := world fresh_home hub [Ok padded_token] in
  let st' := world (fresh_home ++ [("~/.gitup_token", File "tok")])%list hub [] in
  login st =
    (Ok tt, st',
     (banner ++
      [Input "GitHub token: ";
       Call (GetUser alice);
       Write TOKEN_PATH "tok";
       Print "Authenticated as alice"])%list) /\
  get_github_client st' = (Ok alice, st', []).
Proof.
  destruct (X2_login_then_client
              (world fresh_home hub [Ok padded_token]) padded_token [] "alice"
              (fresh_home ++ [("~/.gitup_token", File "tok")])%list
              eq_refl ltac:(discriminate) eq_refl eq_refl) as [Hlogin Hclient].
  split; [exact Hlogin | exact (Hclient eq_refl eq_refl)].
Defined.

Lemma X3_witness :
  login (world fresh_home hub [Ok blank_input]) =
    (Raise (SystemExit 1), world fresh_home hub [],
     (banner ++
      [Input "GitHub token: "; Print "gitup ERR! Token cannot be empty"])%list).
Proof.
  refine (X3_login_blank_token (world fresh_home hub [Ok blank_input])
            blank_input [] eq_refl _).
  repeat constructor.
Defined.

Lemma X4_witness :
  let st := world home hub [] in
  (exists t,
     send_file "notes.txt" "site" st =
       (Raise (SystemExit 1), st,
        Print "gitup ERR! Invalid repository format" :: t) /\
     calls t = []) /\
  (exists t,
     send_file "missing.txt" "alice/site" st =
       (Raise (SystemExit 1), st,
        Print ("gitup ERR! File not found: " ++ "missing.txt") :: t) /\
     calls t = []).
Proof.
  split.
  - refine (proj1 (X4_send_validates_before_network "notes.txt" "site"
                     (world home hub []) alice (home_logged_in hub []) _ _)
              eq_refl); discriminate.
  - refine (proj2 (X4_send_validates_before_network "missing.txt" "alice/site"
                     (world home hub []) alice (home_logged_in hub []) _ _)
              _ eq_refl); discriminate.
Defined.

Lemma X5_witness :
  let st := world home hub [] in
  exists t,
    send_file "notes.txt" "alice/other" st =
      (Raise (SystemExit 1), st,
       Call (GetRepo alice "alice/other")
       :: Print ("gitup ERR! Repository not found: " ++ "alice/other") :: t) /\
    calls t = [].
Proof.
  refine (X5_send_repository_not_found "notes.txt" "alice/other"
            (world home hub []) alice "alice/other" "" 404%Z "404 Not Found"
            (home_logged_in hub []) _ eq_refl eq_refl eq_refl).
  discriminate.
Defined.

Lemma X6_witness :
  let st := world home hub [] in
  send_file "notes.txt" "alice/site:docs" st =
    (Raise (SystemExit 1), st,
     [Call (GetRepo alice "alice/site");
      Call (GetContents site_repo "docs");
      Print "gitup ERR! Unexpected error: 'list' object has no attribute 'sha'"]).
Proof.
  refine (proj1
    (X6_upload_onto_directory "notes.txt" "alice/site:docs"
       (world home hub []) alice "alice/site" "docs" "hi"
       [{| cf_name := "a.md"; cf_type := "file"; cf_sha := "blob A";
           cf_content := "QQ==" |}]
       (home_logged_in hub []) eq_refl _ eq_refl eq_refl eq_refl eq_refl)).
  discriminate.
Defined.

Lemma X7_witness :
  fst (fst (send_file "notes.txt" "alice/site:README.md" (world home hub [])))
    = Ok tt.
Proof.
  refine (proj2
    (X7_send_succeeds_iff "notes.txt" "alice/site:README.md"
       (world home hub []) alice "alice/site" "README.md" "hi"
       (home_logged_in hub []) eq_refl _ eq_refl eq_refl eq_refl) _).
  - discriminate.
  - left. do 2 eexists. split; reflexivity.
Defined.

Lemma X8_witness :
  Forall (fun e => is_delete e = false)
    (snd (main (Some (Copy "proj" "alice/site:dest")) (world home hub []))).
Proof.
  apply (X8_only_rm_deletes (Some (Copy "proj" "alice/site:dest"))
           (world home hub [])).
  discriminate.
Defined.

Lemma X13_witness :
  let st := world home hub [] in
  copy "nowhere" "alice/site:dest" st =
    (Raise (SystemExit 1), st,
     [Call (GetRepo alice "alice/site");
      Print ("gitup ERR! Source not found: " ++ "nowhere");
      Print "Please verify the file or folder path"]).
Proof.
  refine (proj1
    (X13_copy_upload_bad_source "nowhere" "alice/site:dest"
       (world home hub []) alice "alice/site" "dest"
       _ _ (home_logged_in hub []) _ eq_refl eq_refl) eq_refl).
  - discriminate.
  - discriminate.
  - left. vm_compute. intuition discriminate.
Defined.

Lemma X14_witness :
  let st := world home hub [] in
  let run := copy "alice/site:" "out" st in
  let readme :=
    {| cf_name := "README.md"; cf_type := "file";
       cf_sha := "blob readme"; cf_content := "cmVhZG1l" |} in
  let docs :=
    {| cf_name := "docs"; cf_type := "dir"; cf_sha := "tree";
       cf_content := "" |} in
  fst (fst run) = Ok tt /\
  net (snd (fst run)) = net st /\
  calls (snd run) =
    [Call (GetRepo alice "alice/site");
     Call (GetContents site_repo "");
     Call (GetEntry site_repo readme)] /\
  snd run =
    [Call (GetRepo alice "alice/site");
     Call (GetContents site_repo "");
     Makedirs "out";
     Call (GetEntry site_repo readme);
     Write "out/README.md" "readme";
     Print "Downloaded 2 files to out"] /\
  exists steps,
    downloaded (net st) site_repo "out" [readme; docs] steps /\
    snd run =
      ([Call (GetRepo alice "alice/site");
        Call (GetContents site_repo "");
        Makedirs "out"]
       ++ concat steps ++ [Print "Downloaded 2 files to out"])%list.
Proof.
  intros st run readme docs.
  split; [reflexivity|].
  destruct (X14_download_listing "alice/site:" "out" (world home hub [])
              alice "alice/site" "" [readme; docs]
              (snd (fst run)) (snd run)
              ltac:(discriminate) ltac:(discriminate)
              (home_logged_in hub [])
              ltac:(intros [H | [t H]];
                    [apply H; vm_compute; tauto | discriminate])
              eq_refl eq_refl eq_refl eq_refl)
    as (Hnet & Hcalls & Hsteps).
  split; [exact Hnet|]. split; [exact Hcalls|].
  split; [reflexivity | exact Hsteps].
Defined.

Lemma X15_witness :
  OsPath.basename "out/README.md" = "README.md" /\
  b64decode "cmVhZG1l" = Ok "readme".
Proof.
  refine (X15_downloaded_file_keeps_name "alice/site:README.md" "out"
            (world home hub []) alice "alice/site" "README.md"
            {| cf_name := "README.md"; cf_type := "file";
               cf_sha := "blob readme"; cf_content := "cmVhZG1l" |}
            _ _ (home_logged_in hub []) _ eq_refl eq_refl eq_refl _
            "out/README.md" "readme" _).
  - discriminate.
  - discriminate.
  - intros [H | [t H]]; [apply H; vm_compute; tauto | discriminate].
  - vm_compute. intuition discriminate.
  - vm_compute. tauto.
Defined.

Lemma X16_witness :
  let st := world home_with_out_file hub [] in
  copy "alice/site:README.md" "out" st =
    (Raise (OtherException "[Errno 17] File exists: out"), st,
     [Call (GetRepo alice "alice/site");
      Call (GetContents site_repo "README.md");
      Makedirs "out"]).
Proof.
  refine (proj1 (proj2
    (X16_download_local_failure_propagates "alice/site:README.md" "out"
       (world home_with_out_file hub []) alice "alice/site" "README.md"
       {| cf_name := "README.md"; cf_type := "file";
          cf_sha := "blob readme"; cf_content := "cmVhZG1l" |}
       "[Errno 17] File exists: out"
       _ _ (plain_home_logged_in home_with_out_file hub [] eq_refl) _ eq_refl eq_refl eq_refl))
    "readme" home_with_out_file eq_refl eq_refl).
  - discriminate.
  - discriminate.
  - intros [H | [t H]]; [apply H; vm_compute; tauto | discriminate].
Defined.

Lemma X17_witness :
  let st := world home hub_broken [] in
  remove_file "alice/site:README.md" st =
    (Raise (SystemExit 1), st,
     Call (GetRepo alice "alice/site")
     :: Call (GetContents site_repo "README.md")
     :: rm_report 500 "request failed" "README.md").
Proof.
  refine (proj1 (proj2
    (X17_rm_reports_remote_errors "alice/site:README.md"
       (world home hub_broken []) alice "alice/site" "README.md"
       500%Z "request failed" (home_logged_in hub_broken []) eq_refl _))
    eq_refl eq_refl).
  discriminate.
Defined.

Lemma X18_witness :
  list_files "" (world home bare_hub []) =
    (Ok tt, world home bare_hub [],
     [Call (GetRepos alice); Print "No repositories found"]) /\
  list_files ":." (world home hub []) =
    (Ok tt, world home hub [],
     [Call (GetRepos alice);
      Call (GetUser alice);
      Print "Repositories for alice:";
      Print "  alice/site (public)"]).
Proof.
  split.
  - refine (proj1 (X18_ls_repositories "" (world home bare_hub []) alice
                     (home_logged_in bare_hub []) _) eq_refl).
    now left.
  - refine (proj1 (proj2 (X18_ls_repositories ":." (world home hub []) alice
                            (home_logged_in hub []) _))
              site [] "alice" eq_refl eq_refl).
    now right.
Defined.

Lemma X19_witness :
  let st := world home hub [] in
  list_files "alice/site" st =
    (Ok tt, st,
     Call (GetRepo alice "alice/site")
     :: Call (GetContents site_repo "")
     :: Print "Contents of alice/site:/:"
     :: map (fun c => Print (entry_line c))
          [{| cf_name := "README.md"; cf_type := "file";
              cf_sha := "blob readme"; cf_content := "cmVhZG1l" |};
           {| cf_name := "docs"; cf_type := "dir"; cf_sha := "tree";
              cf_content := "" |}]).
Proof.
  refine (proj1
    (X19_ls_contents "alice/site" (world home hub []) alice "alice/site" ""
       (home_logged_in hub []) eq_refl eq_refl) _ eq_refl).
Defined.

Lemma X20_witness :
  let st := world home hub [] in
  (exists t,
     list_files "site" st =
       (Raise (SystemExit 1), st,
        Print "gitup ERR! Invalid repository format" :: t) /\
     calls t = []) /\
  list_files "alice/other" st =
    (Raise (SystemExit 1), st,
     Call (GetRepo alice "alice/other")
     :: ls_report 404 "404 Not Found" "alice/other" "").
Proof.
  split.
  - refine (proj1 (X20_ls_errors "site" (world home hub []) alice
                     (home_logged_in hub []) _ _) eq_refl); discriminate.
  - refine (proj1 (proj2 (X20_ls_errors "alice/other" (world home hub []) alice
                            (home_logged_in hub []) _ _)
                     "alice/other" "" 404%Z "404 Not Found" eq_refl) eq_refl);
      discriminate.
Defined.

End MoreOnSamples.
